(** * Push-notification fan-out of the push-test backend

    Shallow embedding of
    - [backend/services/fcmPushService.js] (two services: [FCMPushService],
      exported by [fcmPushService.js], and [HybridPushService], the service
      that the posts router loads as [../services/pushService]),
    - [backend/routes/push.js] (device registry routes),
    - the notification blocks of the comments router ([unnamed/part_001])
      and of the posts router ([unnamed/part_002]), with
      [createNotification] of the notifications router ([unnamed/part_003])
      and the Notification schema ([unnamed/part_004]),
    - the device methods of [backend/models/User.js], the like methods of
      [backend/models/Post.js], [backend/routes/notifications.js] and
      [backend/scripts/migrate-notification-settings.js].

    JavaScript promises are modelled by the result type [js]: a computation
    either resolves with a value or rejects with an [Error] object.  The
    remote transports ([admin.messaging().send] and
    [webpush.sendNotification]) are arguments of the functions that call
    them, so every theorem holds for every behaviour of the remote side. *)

From Stdlib Require Import String Ascii List Bool Arith Lia.
Import ListNotations.
Open Scope string_scope.

(* ------------------------------------------------------------------ *)
(** ** Promises and exceptions *)

(** A thrown JavaScript value.  Every value thrown on these paths is an
    [Error] object (explicit [throw new Error(..)], a [TypeError] of the
    engine, or a rejection of the Firebase / web-push clients), so it
    carries a [message]. *)
Record js_error := JsError { message : string }.

Inductive js (A : Type) : Type :=
| Resolved (a : A)
| Rejected (e : js_error).
Arguments Resolved {A} a.
Arguments Rejected {A} e.

Definition js_ret {A} (a : A) : js A := Resolved a.

Definition js_bind {A B} (m : js A) (k : A -> js B) : js B :=
  match m with
  | Resolved a => k a
  | Rejected e => Rejected e
  end.

Notation "x <- m ;; k" := (js_bind m (fun x => k))
  (at level 61, m at next level, right associativity).

(** [throw new Error(msg)] *)
Definition js_throw {A} (msg : string) : js A := Rejected (JsError msg).

(** [try { body } catch (error) { handler }] *)
Definition js_try {A} (body : js A) (handler : js_error -> js A) : js A :=
  match body with
  | Resolved a => Resolved a
  | Rejected e => handler e
  end.

(** [promise.catch(handler)] with a handler that returns a plain value. *)
Definition js_catch {A} (p : js A) (handler : js_error -> A) : A :=
  match p with
  | Resolved a => a
  | Rejected e => handler e
  end.

(* ------------------------------------------------------------------ *)
(** ** String helpers (JavaScript semantics) *)

(** [s.length] *)
Definition js_length (s : string) : nat := String.length s.

(** [s.substring(0, n)] *)
Definition js_prefix (s : string) (n : nat) : string := substring 0 n s.

(** [s.includes(sub)] *)
Definition includes (s sub : string) : bool :=
  match index 0 sub s with Some _ => true | None => false end.

(** Truthiness of an optional string field: [undefined] and [""] are falsy. *)
Definition truthy_str (o : option string) : bool :=
  match o with
  | Some s => negb (String.eqb s "")
  | None => false
  end.

(* ------------------------------------------------------------------ *)
(** ** Payload bodies (routes/posts.js, routes/comments.js) *)

(** [text.length > 100 ? text.substring(0, 100) + '...' : text] *)
Definition new_post_body (text : string) : string :=
  if Nat.ltb 100 (js_length text) then js_prefix text 100 ++ "..." else text.

(** [text.length > 50 ? text.substring(0, 47) + '...' : text]; the comment,
    reply and comment-like pushes all use this expression. *)
Definition comment_body (text : string) : string :=
  if Nat.ltb 50 (js_length text) then js_prefix text 47 ++ "..." else text.

(** A string of [n] copies of ["a"], used for concrete inputs. *)
Fixpoint rep_a (n : nat) : string :=
  match n with
  | O => EmptyString
  | S k => String "a"%char (rep_a k)
  end.

(* ------------------------------------------------------------------ *)
(** ** Data model (models/User.js) *)

(** A device subdocument of [deviceSchema].  [webPushSubscription] is an
    object (always truthy when present), represented by its endpoint;
    [dv_oid] is the subdocument's [_id] assigned by Mongoose. *)
Record device := mkDevice {
  dv_oid : nat;
  deviceId : string;
  platform : string;
  browser : string;
  webPushSubscription : option string;
  fcmToken : option string;
  pushMethod : string;
  lastActiveAt : nat;
  enabled : bool
}.

(** A user document; [notificationSettings] is the stored sub-object, as
    an association list from category name to its stored boolean (a
    category that is not stored reads as [undefined]). *)
Record user := mkUser {
  u_id : nat;
  following : list nat;
  notificationSettings : list (string * bool);
  devices : list device
}.

Fixpoint setting_lookup (s : list (string * bool)) (cat : string) : option bool :=
  match s with
  | [] => None
  | (k, v) :: rest => if String.eqb k cat then Some v else setting_lookup rest cat
  end.

(** [user.notificationSettings[cat]] *)
Definition setting (u : user) (cat : string) : option bool :=
  setting_lookup (notificationSettings u) cat.

(** JavaScript truthiness of a boolean field that may be [undefined]. *)
Definition truthy_bool (o : option bool) : bool :=
  match o with Some true => true | _ => false end.

(* ------------------------------------------------------------------ *)
(** ** Push payloads and results *)

(** The payload object built by the routes. *)
Record push_payload := mkPayload {
  p_title : string;
  p_body : string;
  p_icon : option string;
  p_badge : option string;
  p_type : string;
  p_url : string
}.

(** [{ success, method, result?, error? }] returned by the transports. *)
Record send_result := mkSendResult {
  sr_success : bool;
  sr_method : string;
  sr_error : option string
}.

(** Per-device outcome: [{ ...result, deviceId, pushMethod }], or
    [{ success: false, reason }] for a short-circuited device, or
    [{ success: false, deviceId, error }] built by the [.catch] of
    [sendToDevices]. *)
Record device_outcome := mkOutcome {
  o_success : bool;
  o_deviceId : option string;
  o_reason : option string;
  o_error : option string;
  o_method : option string
}.

Definition short_circuit (reason : string) : device_outcome :=
  mkOutcome false None (Some reason) None None.

Definition tag_result (r : send_result) (d : device) (m : string) : device_outcome :=
  mkOutcome (sr_success r) (Some (deviceId d)) None (sr_error r) (Some m).

(** The object returned by [sendToDevices]. *)
Record devices_report := mkReport {
  total : nat;
  successful : nat;
  failed : nat;
  results : list device_outcome
}.

(** The value returned by [sendToUser]: either [{ success: false, reason }]
    or the report of [sendToDevices]. *)
Inductive user_result :=
| UFail (reason : string)
| UReport (r : devices_report).

(** One entry of [allResults] in [sendToUsers]:
    [{ userId, ...userResult }] or [{ userId, success: false, error }]. *)
Inductive user_entry :=
| Entry (uid : nat) (r : user_result)
| EntryErr (uid : nat) (msg : string).

(** The property [entry.success] of a [user_entry]: the spread report of
    [sendToDevices] has no [success] key, so it reads as [undefined]. *)
Definition success_field (e : user_entry) : option bool :=
  match e with
  | Entry _ (UFail _) => Some false
  | Entry _ (UReport _) => None
  | EntryErr _ _ => Some false
  end.

Record users_report := mkUsersReport {
  totalUsers : nat;
  user_results : list user_entry;
  summary_successful : nat;
  summary_failed : nat
}.

(** Truthiness of an optional object field. *)
Definition is_some {A} (o : option A) : bool :=
  match o with Some _ => true | None => false end.

(** [arr.filter(p).length] *)
Definition count {A} (p : A -> bool) (l : list A) : nat := length (filter p l).

(* ------------------------------------------------------------------ *)
(** ** Shared fan-out skeleton *)

Section FanOut.

(** The per-device send of one service. *)
Variable sendToDevice : device -> push_payload -> js device_outcome.

(** [sendToDevices]: every per-device promise gets its own [.catch], then
    [Promise.all] joins them. *)
Definition catch_device (payload : push_payload) (d : device) : device_outcome :=
  js_catch (sendToDevice d payload)
    (fun e => mkOutcome false (Some (deviceId d)) None (Some (message e)) None).

Definition sendToDevices (devs : list device) (payload : push_payload)
  : js devices_report :=
  let sendResults := map (catch_device payload) devs in
  js_ret (mkReport (length devs)
                   (count o_success sendResults)
                   (count (fun r => negb (o_success r)) sendResults)
                   sendResults).

(** [sendToUser], parameterised by the device filter of the service and
    by the reason string of its empty case. *)
Definition sendToUser_with (eligible : device -> bool) (none_reason : string)
    (u : user) (payload : push_payload) : js user_result :=
  let enabledDevices := filter eligible (devices u) in
  if Nat.eqb (length enabledDevices) 0 then js_ret (UFail none_reason)
  else r <- sendToDevices enabledDevices payload ;; js_ret (UReport r).

(** The sequential [for .. of] loop of [sendToUsers] with its per-user
    [try/catch]. *)
Definition user_entry_of (sendToUser : user -> push_payload -> js user_result)
    (payload : push_payload) (u : user) : user_entry :=
  match sendToUser u payload with
  | Resolved r => Entry (u_id u) r
  | Rejected e => EntryErr (u_id u) (message e)
  end.

End FanOut.

(** [r.success !== false] (FCMPushService.sendToUsers) *)
Definition fcm_counts_success (e : user_entry) : bool :=
  match success_field e with Some false => false | _ => true end.

(** [r.success] truthy (HybridPushService.sendToUsers) *)
Definition hybrid_counts_success (e : user_entry) : bool :=
  truthy_bool (success_field e).

(* ------------------------------------------------------------------ *)
(** ** [FCMPushService] (services/fcmPushService.js, first class) *)

Module FCM.
Section Service.

(** [this.isFirebaseInitialized] *)
Variable isFirebaseInitialized : bool.
(** [admin.messaging().send(message)], where [message] is built from the
    token and the payload fields; it resolves with a message id or rejects. *)
Variable messaging_send : option string -> push_payload -> js string.

Definition sendFCMPush (token : option string) (payload : push_payload)
  : js send_result :=
  js_try
    (if negb isFirebaseInitialized then js_throw "Firebase not initialized"
     else _ <- messaging_send token payload ;;
          js_ret (mkSendResult true "fcm" None))
    (fun error => js_ret (mkSendResult false "fcm" (Some (message error)))).

Definition sendToDevice (d : device) (payload : push_payload)
  : js device_outcome :=
  if negb (enabled d) then js_ret (short_circuit "Device disabled")
  else if negb (truthy_str (fcmToken d))
  then js_ret (short_circuit "No FCM token available")
  else result <- sendFCMPush (fcmToken d) payload ;;
       js_ret (tag_result result d "fcm").

(** [device.enabled && device.fcmToken] *)
Definition eligible (d : device) : bool :=
  enabled d && truthy_str (fcmToken d).

Definition sendToUser : user -> push_payload -> js user_result :=
  sendToUser_with sendToDevice eligible "No enabled FCM devices".

Definition sendToUsers (users : list user) (payload : push_payload)
  : js users_report :=
  let allResults := map (user_entry_of sendToUser payload) users in
  js_ret (mkUsersReport (length users) allResults
            (count fcm_counts_success allResults)
            (count (fun r => negb (fcm_counts_success r)) allResults)).

End Service.
End FCM.

(* ------------------------------------------------------------------ *)
(** ** [HybridPushService] (services/pushService.js, second class) *)

Module Hybrid.
Section Service.

Variable isFirebaseInitialized : bool.
Variable isWebPushInitialized : bool.
Variable messaging_send : option string -> push_payload -> js string.
(** [webpush.sendNotification(subscription, JSON.stringify(..), options)] *)
Variable webpush_send : option string -> push_payload -> js string.

(** [device.webPushSubscription] read on a device subdocument.  The path
    is a nested object of [deviceSchema] ([{ endpoint, keys: { .. } }]),
    which Mongoose always materialises on the document, so the read is a
    (truthy) object whether or not a subscription was stored. *)
Definition webPushSubscription_read (d : device) : bool := true.

Definition getBestPushMethod (d : device) : option string :=
  if String.eqb (pushMethod d) "web-push" && webPushSubscription_read d
     && isWebPushInitialized then Some "web-push"
  else if String.eqb (pushMethod d) "fcm" && truthy_str (fcmToken d)
     && isFirebaseInitialized then Some "fcm"
  else if String.eqb (pushMethod d) "auto" then
    if (String.eqb (platform d) "web" || String.eqb (platform d) "mac"
        || String.eqb (platform d) "windows")
       && webPushSubscription_read d && isWebPushInitialized
    then Some "web-push"
    else if truthy_str (fcmToken d) && isFirebaseInitialized then Some "fcm"
    else if webPushSubscription_read d && isWebPushInitialized
    then Some "web-push"
    else None
  else None.

Definition sendWebPush (subscription : option string) (payload : push_payload)
  : js send_result :=
  js_try
    (if negb isWebPushInitialized then js_throw "Web Push VAPID not initialized"
     else _ <- webpush_send subscription payload ;;
          js_ret (mkSendResult true "web-push" None))
    (fun error => js_ret (mkSendResult false "web-push" (Some (message error)))).

Definition sendFCMPush (token : option string) (payload : push_payload)
  : js send_result :=
  js_try
    (if negb isFirebaseInitialized then js_throw "Firebase not initialized"
     else _ <- messaging_send token payload ;;
          js_ret (mkSendResult true "fcm" None))
    (fun error => js_ret (mkSendResult false "fcm" (Some (message error)))).

Definition sendToDevice (d : device) (payload : push_payload)
  : js device_outcome :=
  if negb (enabled d) then js_ret (short_circuit "Device disabled")
  else match getBestPushMethod d with
  | None => js_ret (short_circuit "No available push method")
  | Some m =>
      if String.eqb m "web-push" then
        result <- sendWebPush (webPushSubscription d) payload ;;
        js_ret (tag_result result d m)
      else if String.eqb m "fcm" then
        result <- sendFCMPush (fcmToken d) payload ;;
        js_ret (tag_result result d m)
      else js_ret (mkOutcome false (Some (deviceId d)) None None (Some m))
  end.

(** [device.enabled] *)
Definition eligible (d : device) : bool := enabled d.

Definition sendToUser : user -> push_payload -> js user_result :=
  sendToUser_with sendToDevice eligible "No enabled devices".

Definition sendToUsers (users : list user) (payload : push_payload)
  : js users_report :=
  let allResults := map (user_entry_of sendToUser payload) users in
  js_ret (mkUsersReport (length users) allResults
            (count hybrid_counts_success allResults)
            (count (fun r => negb (hybrid_counts_success r)) allResults)).

End Service.
End Hybrid.

(* ------------------------------------------------------------------ *)
(** ** Device registry (routes/push.js) *)

Module Registry.

(** [detectBrowser(userAgent)] *)
Definition detectBrowser (userAgent : option string) : string :=
  match userAgent with
  | Some ua =>
      if String.eqb ua "" then "other"
      else if includes ua "Chrome" && negb (includes ua "Edge") then "chrome"
      else if includes ua "Firefox" then "firefox"
      else if includes ua "Safari" && negb (includes ua "Chrome") then "safari"
      else if includes ua "Edge" then "edge"
      else "other"
  | None => "other"
  end.

(** [detectPlatform(userAgent)] *)
Definition detectPlatform (userAgent : option string) : string :=
  match userAgent with
  | Some ua =>
      if String.eqb ua "" then "web"
      else if includes ua "Macintosh" || includes ua "Mac OS X" then "mac"
      else if includes ua "iPhone" || includes ua "iPad" then "ios"
      else if includes ua "Android" then "android"
      else if includes ua "Windows" then "windows"
      else "web"
  | None => "web"
  end.

Definition mem_str (s : string) (l : list string) : bool :=
  existsb (String.eqb s) l.

(** The validators Mongoose runs on [user.save()] for each device
    subdocument: [deviceId] required (non-empty) and the three enums. *)
Definition device_valid (d : device) : bool :=
  negb (String.eqb (deviceId d) "")
  && mem_str (platform d) ["web"; "android"; "ios"; "mac"; "windows"]
  && mem_str (browser d) ["chrome"; "firefox"; "safari"; "edge"; "other"]
  && mem_str (pushMethod d) ["web-push"; "fcm"; "auto"].

(** HTTP status and the user's device array as stored after the request. *)
Definition response := (nat * list device)%type.

(** [await user.save()]: a validation error is caught by the route's
    [try/catch] (status 500) and nothing is stored. *)
Definition save (old new : list device) : response :=
  if forallb device_valid new then (200, new) else (500, old).

(** [array.findIndex(p)], with [-1] as [None]. *)
Fixpoint findIndex (p : device -> bool) (l : list device) : option nat :=
  match l with
  | [] => None
  | x :: rest =>
      if p x then Some 0
      else match findIndex p rest with Some i => Some (S i) | None => None end
  end.

(** [array[i] = x] for an index inside the array. *)
Fixpoint set_nth (i : nat) (x : device) (l : list device) : list device :=
  match l, i with
  | [], _ => []
  | _ :: rest, O => x :: rest
  | y :: rest, S j => y :: set_nth j x rest
  end.

Record subscribe_req := mkSubscribeReq {
  rq_deviceId : option string;
  rq_webPushSubscription : option string;
  rq_fcmToken : option string;
  rq_pushMethod : option string;
  (** [deviceInfo], with its [browser] and [platform] fields *)
  rq_deviceInfo : option (option string * option string);
  (** [req.headers['user-agent']] *)
  rq_userAgent : option string
}.

(** [{ browser, platform }] chosen by the route. *)
Definition browser_platform (r : subscribe_req) : string * string :=
  match rq_deviceInfo r with
  | Some (b, p) =>
      if truthy_str b && truthy_str p then
        (match b with Some s => s | None => "" end,
         match p with Some s => s | None => "" end)
      else (detectBrowser (rq_userAgent r), detectPlatform (rq_userAgent r))
  | None => (detectBrowser (rq_userAgent r), detectPlatform (rq_userAgent r))
  end.

(** [deviceData], given the subdocument [_id] it ends up with. *)
Definition deviceData (r : subscribe_req) (id : string) (now oid : nat) : device :=
  let (b, p) := browser_platform r in
  mkDevice oid id p b
    (rq_webPushSubscription r)
    (if truthy_str (rq_fcmToken r) then rq_fcmToken r else None)
    (match rq_pushMethod r with Some m => m | None => "auto" end)
    now true.

Definition has_id (id : string) (d : device) : bool := String.eqb (deviceId d) id.

(** [POST /subscribe]; [now] is [new Date()] and [fresh] the [_id] Mongoose
    gives a pushed subdocument. *)
Definition subscribe (devs : list device) (r : subscribe_req) (now fresh : nat)
  : response :=
  match rq_deviceId r with
  | None => (400, devs)
  | Some id =>
    if String.eqb id "" then (400, devs)
    else if negb (is_some (rq_webPushSubscription r)) && negb (truthy_str (rq_fcmToken r))
    then (400, devs)
    else
      let devs' :=
        match findIndex (has_id id) devs with
        | Some i =>
            match nth_error devs i with
            | Some existing =>
                (* { ...existing.toObject(), ...deviceData, platform, browser } *)
                set_nth i (deviceData r id now (dv_oid existing)) devs
            | None => devs
            end
        | None => (devs ++ [deviceData r id now fresh])%list
        end in
      save devs devs'
  end.

(** [POST /unsubscribe] *)
Definition unsubscribe (devs : list device) (rid : option string) : response :=
  match rid with
  | None => (400, devs)
  | Some id =>
    if String.eqb id "" then (400, devs)
    else save devs (filter (fun d => negb (has_id id d)) devs)
  end.

(** The body fields of [PATCH /devices/:deviceId]; [pm_enabled] is [None]
    when [typeof enabled !== 'boolean']. *)
Record patch_req := mkPatchReq {
  pm_enabled : option bool;
  pm_pushMethod : option string
}.

(** The in-place mutation of the found subdocument. *)
Definition patch_device (r : patch_req) (now : nat) (d : device) : device :=
  let en := match pm_enabled r with Some b => b | None => enabled d end in
  let pm := if truthy_str (pm_pushMethod r)
               && mem_str (match pm_pushMethod r with Some m => m | None => "" end)
                          ["web-push"; "fcm"; "auto"]
            then match pm_pushMethod r with Some m => m | None => pushMethod d end
            else pushMethod d in
  mkDevice (dv_oid d) (deviceId d) (platform d) (browser d)
    (webPushSubscription d) (fcmToken d) pm now en.

(** [PATCH /devices/:deviceId]: [user.devices.find] returns the first
    matching subdocument, which is mutated in place. *)
Definition patch (devs : list device) (id : string) (r : patch_req) (now : nat)
  : response :=
  match findIndex (has_id id) devs with
  | None => (404, devs)
  | Some i =>
      match nth_error devs i with
      | Some device => save devs (set_nth i (patch_device r now device) devs)
      | None => (404, devs)
      end
  end.

(** A registration request that passes the route's checks for [id] and
    whose device passes the schema validators. *)
Definition request_ok (r : subscribe_req) (id : string) : Prop :=
  rq_deviceId r = Some id /\ String.eqb id "" = false
  /\ (is_some (rq_webPushSubscription r) || truthy_str (rq_fcmToken r)) = true
  /\ device_valid (deviceData r id 0 0) = true.

(** Device arrays reachable from an empty array through the three routes. *)
Inductive reachable : list device -> Prop :=
| reach_nil : reachable []
| reach_subscribe devs r now fresh :
    reachable devs -> reachable (snd (subscribe devs r now fresh))
| reach_unsubscribe devs rid :
    reachable devs -> reachable (snd (unsubscribe devs rid))
| reach_patch devs id r now :
    reachable devs -> reachable (snd (patch devs id r now)).

End Registry.

(* ------------------------------------------------------------------ *)
(** ** Notification blocks of the content routes *)

Module Notify.

(** An in-app notification ([createNotification]) or a push send
    ([pushService.sendToUser] / [sendToUsers]). *)
Inductive channel := InApp | Push.

(** [(recipient, type, channel)] *)
Definition notification := (nat * string * channel)%type.

Definition recipient (n : notification) : nat := fst (fst n).

(** [User.findById(id)] over the users collection. *)
Definition findById (db : list user) (id : nat) : option user :=
  find (fun u => Nat.eqb (u_id u) id) db.

(** [user.notificationSettings[cat]] read on a User document: the
    sub-object has the paths of [userSchema.notificationSettings]
    ([follows] and [postsFromFollowed]); any other key reads as
    [undefined]. *)
Definition doc_setting (u : user) (cat : string) : option bool :=
  if existsb (String.eqb cat) ["follows"; "postsFromFollowed"] then setting u cat
  else None.

(** The notification blocks are [async] code whose effects (stored in-app
    notifications, push sends) happen in order until an error is thrown:
    a block yields the notifications it produced and how it ended. *)
Definition block (A : Type) : Type := (list notification * js A)%type.

Definition b_ret {A} (a : A) : block A := ([], Resolved a).

Definition b_bind {A B} (m : block A) (k : A -> block B) : block B :=
  match m with
  | (log, Resolved a) => let (log', r) := k a in ((log ++ log')%list, r)
  | (log, Rejected e) => (log, Rejected e)
  end.

Definition b_emit (ns : list notification) : block unit := (ns, Resolved tt).

(** [try { .. } catch (notificationError) { console.error(..) }]: the
    error is logged and dropped; what was produced before it stays. *)
Definition b_catch_log (m : block unit) : list notification := fst m.

(** [createNotification(recipientId, actorId, type, ..)]
    (routes/notifications.js): [null] for a self-notification, otherwise
    [notification.save()]; the Notification schema (models/Notification.js)
    has [type: { enum: ['follow', 'new_post'] }], so saving any other type
    fails validation, and the error is rethrown. *)
Definition createNotification (recipientId actorId : nat) (type : string) : block unit :=
  if Nat.eqb recipientId actorId then b_ret tt
  else if existsb (String.eqb type) ["follow"; "new_post"]
  then b_emit [(recipientId, type, InApp)]
  else ([], js_throw "Notification validation failed").

(** The push block guarded by [user && user.notificationSettings[cat]];
    [pushService.sendToUser] always resolves. *)
Definition push_if_opted (db : list user) (id : nat) (cat type : string)
  : list notification :=
  match findById db id with
  | Some u => if truthy_bool (doc_setting u cat) then [(id, type, Push)] else []
  | None => []
  end.

(** [await createNotification(recipient, actor, type, ..)], then the push
    block for [cat]. *)
Definition notify_with_push (db : list user) (recipient actor : nat) (type cat : string)
  : block unit :=
  b_bind (createNotification recipient actor type)
    (fun _ => b_emit (push_if_opted db recipient cat type)).

(** [POST /comments]: the notification block run after the comment is
    saved; [parentAuthor] is the author of the parent comment for a reply. *)
Definition comment_notifications (db : list user) (actor postAuthor : nat)
    (parentAuthor : option nat) : list notification :=
  b_catch_log
    (b_bind
       (if negb (Nat.eqb postAuthor actor)
        then notify_with_push db postAuthor actor "comment" "commentsOnMyPosts"
        else b_ret tt)
       (fun _ =>
          match parentAuthor with
          | Some pa =>
              if negb (Nat.eqb pa actor)
              then notify_with_push db pa actor "reply" "repliesToMyComments"
              else b_ret tt
          | None => b_ret tt
          end)).

(** [POST /comments/:commentId/like]: returns the new [likes] array and the
    notifications; the block runs only for a like (not an unlike) by
    someone other than the comment's author. *)
Definition like_comment (db : list user) (likes : list nat) (liker commentAuthor : nat)
  : list nat * list notification :=
  let isLiked := existsb (Nat.eqb liker) likes in
  let likes' := if isLiked then filter (fun id => negb (Nat.eqb id liker)) likes
                else (likes ++ [liker])%list in
  (likes',
   if negb isLiked && negb (Nat.eqb commentAuthor liker) then
     b_catch_log (notify_with_push db commentAuthor liker "like" "likesOnMyPosts")
   else []).

(** [post.toggleLike(userId)] (models/Post.js) on the ids of [post.likes]. *)
Definition toggleLike (likes : list nat) (userId : nat) : list nat :=
  if existsb (Nat.eqb userId) likes
  then filter (fun id => negb (Nat.eqb id userId)) likes
  else (likes ++ [userId])%list.

(** [POST /posts/:id/like] on a post by [postAuthor]: toggles the like
    and sends the response; the handler contains no notification code, so
    neither the users collection nor the post's author is consulted. *)
Definition like_post (db : list user) (postAuthor : nat) (likes : list nat) (liker : nat)
  : list nat * list notification :=
  (toggleLike likes liker, []).

(** [User.find({ following: authorId,
                 'notificationSettings.postsFromFollowed': true })] *)
Definition followers_query (db : list user) (authorId : nat) : list user :=
  filter (fun u => existsb (Nat.eqb authorId) (following u)
                   && match setting u "postsFromFollowed" with
                      | Some true => true | _ => false end) db.

(** [POST /posts]: one [createNotification] per follower, each with its
    own [.catch], then one [sendToUsers] over the same followers. *)
Definition new_post_notifications (db : list user) (authorId : nat)
  : list notification :=
  let followers := followers_query db authorId in
  (concat (map (fun u => b_catch_log (createNotification (u_id u) authorId "new_post"))
               followers)
   ++ map (fun u => (u_id u, "new_post", Push)) followers)%list.

End Notify.

(* ------------------------------------------------------------------ *)
(** ** Likes (models/Post.js, posts and comments routers) *)

Module Likes.
Import Notify.

(** [post.isLikedBy(userId)] *)
Definition isLikedBy (likes : list nat) (userId : nat) : bool :=
  existsb (Nat.eqb userId) likes.

(** The JSON answer of [POST /posts/:id/like]: [isLiked: !wasLiked] and
    [likeCount] (the virtual [likes.length]) after the toggle. *)
Definition like_post_response (db : list user) (postAuthor : nat) (likes : list nat)
    (liker : nat) : bool * nat :=
  let wasLiked := isLikedBy likes liker in
  (negb wasLiked, length (fst (like_post db postAuthor likes liker))).

End Likes.

(* ------------------------------------------------------------------ *)
(** ** Device methods of the user model and the [/api/notifications]
       routes (models/User.js, routes/notifications.js) *)

Module UserModel.
Import Registry.

(** [user.addDevice(deviceData)]: drop the records with the same
    [deviceId], push the new one, save. *)
Definition addDevice (devs : list device) (data : device) : response :=
  save devs ((filter (fun d => negb (has_id (deviceId data) d)) devs) ++ [data])%list.

(** [user.removeDevice(deviceId)] *)
Definition removeDevice (devs : list device) (id : string) : response :=
  save devs (filter (fun d => negb (has_id id d)) devs).

Record notif_subscribe_req := mkNotifSubscribeReq {
  ns_deviceId : string;
  ns_platform : string;
  ns_pushToken : string
}.

(** [POST /api/notifications/subscribe]: express-validator checks
    [deviceId] and [pushToken] non-empty and [platform] in the list, then
    [user.addDevice({ deviceId, platform, pushToken, lastActiveAt })].
    [pushToken] is not a path of [deviceSchema], so Mongoose's strict
    casting drops it; the other paths take their schema defaults
    ([browser: 'other'], [pushMethod: 'auto'], [enabled: true]). *)
Definition notif_subscribe (devs : list device) (r : notif_subscribe_req) (now oid : nat)
  : response :=
  if String.eqb (ns_deviceId r) "" || String.eqb (ns_pushToken r) ""
     || negb (mem_str (ns_platform r) ["web"; "android"; "ios"; "mac"])
  then (400, devs)
  else addDevice devs (mkDevice oid (ns_deviceId r) (ns_platform r) "other"
                                None None "auto" now true).

End UserModel.

(* ------------------------------------------------------------------ *)
(** ** Notification settings (routes/notifications.js,
       scripts/migrate-notification-settings.js) *)

Module Settings.

(** [$set: { 'notificationSettings.<key>': v }] *)
Definition set_setting (s : list (string * bool)) (k : string) (v : bool)
  : list (string * bool) :=
  (k, v) :: filter (fun p => negb (String.eqb (fst p) k)) s.

Definition with_settings (u : user) (s : list (string * bool)) : user :=
  mkUser (u_id u) (following u) s (devices u).

(** [PATCH /api/notifications/settings] for boolean (or absent) fields:
    only the fields present in the body are put into [updateData]. *)
Definition patch_settings (u : user) (follows postsFromFollowed : option bool) : user :=
  let s1 := match follows with
            | Some v => set_setting (notificationSettings u) "follows" v
            | None => notificationSettings u
            end in
  let s2 := match postsFromFollowed with
            | Some v => set_setting s1 "postsFromFollowed" v
            | None => s1
            end in
  with_settings u s2.



End Settings.

(** [entry.userId] of an entry of [allResults]. *)
Definition entry_userId (e : user_entry) : nat :=
  match e with Entry uid _ => uid | EntryErr uid _ => uid end.

(* ================================================================== *)
(** * Properties *)

(** ** Concrete runs *)

Definition sample_payload : push_payload :=
  mkPayload "New post from Ada" "hello" None None "new_post" "/feed".

Definition fcm_device (id tok : string) (en : bool) : device :=
  mkDevice 1 id "android" "other" None (Some tok) "auto" 0 en.

Example new_post_body_short : new_post_body "hello" = "hello".
Proof. reflexivity. Qed.

Example comment_body_51 : js_length (comment_body (rep_a 51)) = 50.
Proof. reflexivity. Qed.

(** ** Helper lemmas *)

Lemma length_substring_0 (s : string) (n : nat) :
  n <= String.length s -> String.length (substring 0 n s) = n.
Proof.
  revert n; induction s as [|c s IH]; intros n Hn; simpl in *.
  - destruct n; simpl; lia.
  - destruct n; simpl; [reflexivity|]. rewrite IH; lia.
Qed.

Lemma length_append (s1 s2 : string) :
  String.length (s1 ++ s2) = String.length s1 + String.length s2.
Proof. induction s1; simpl; congruence. Qed.

Lemma length_rep_a (n : nat) : String.length (rep_a n) = n.
Proof. induction n; simpl; congruence. Qed.

Lemma new_post_body_length (text : string) :
  100 < js_length text -> js_length (new_post_body text) = 103.
Proof.
  unfold new_post_body, js_prefix, js_length; intros H.
  replace (Nat.ltb 100 (String.length text)) with true
    by (symmetry; apply Nat.ltb_lt; exact H).
  rewrite length_append, length_substring_0 by lia. reflexivity.
Qed.

Lemma comment_body_length (text : string) :
  50 < js_length text -> js_length (comment_body text) = 50.
Proof.
  unfold comment_body, js_prefix, js_length; intros H.
  replace (Nat.ltb 50 (String.length text)) with true
    by (symmetry; apply Nat.ltb_lt; exact H).
  rewrite length_append, length_substring_0 by lia. reflexivity.
Qed.

(** The number of users with at least one successful device send. *)
Definition recipientsReached (entries : list user_entry) : nat :=
  count (fun e => match e with
                  | Entry _ (UReport r) => existsb o_success (results r)
                  | _ => false
                  end) entries.

(** Transports used in the concrete runs. *)
Definition send_rejects : option string -> push_payload -> js string :=
  fun _ _ => js_throw "Requested entity was not found.".
Definition send_accepts : option string -> push_payload -> js string :=
  fun _ _ => js_ret "projects/p/messages/1".

Definition user_one_device (en : bool) : user :=
  mkUser 7 [1] [] [fcm_device "dev-A" "tok-A" en].

(** ** C3 *)

(** Claim C3 (code evaluated at a failing input): for a 150-character post
    text the new_post push body is 103 characters long (100 characters
    kept plus "..."), while a comment body of the same text is 50
    characters long (47 kept plus "..."). *)
Theorem C3_new_post_body_is_103 :
  js_length (new_post_body (rep_a 150)) = 103
  /\ new_post_body (rep_a 150) = (rep_a 100 ++ "...")%string
  /\ js_length (comment_body (rep_a 150)) = 50
  /\ comment_body (rep_a 150) = (rep_a 47 ++ "...")%string.
Proof.
  split; [apply new_post_body_length; unfold js_length; rewrite length_rep_a; lia|].
  split; [reflexivity|].
  split; [apply comment_body_length; unfold js_length; rewrite length_rep_a; lia|].
  reflexivity.
Qed.

(** ** C2 *)

(** Claim C2 (code evaluated at failing inputs): the user-level
    [summary.successful] differs from the number of users reached.
    With [FCMPushService] a user whose only device send fails is counted
    as successful (1 where 0 users were reached); with
    [HybridPushService] a user whose only device send succeeds is not
    counted (0 where 1 user was reached). *)
Theorem C2_summary_successful_miscounts :
  (exists rep,
     FCM.sendToUsers true send_rejects [user_one_device true] sample_payload
       = Resolved rep
     /\ summary_successful rep = 1
     /\ recipientsReached (user_results rep) = 0)
  /\
  (exists rep,
     Hybrid.sendToUsers true false send_accepts send_rejects
       [user_one_device true] sample_payload = Resolved rep
     /\ summary_successful rep = 0
     /\ recipientsReached (user_results rep) = 1).
Proof.
  split; eexists; split; try reflexivity; split; vm_compute; reflexivity.
Qed.

(** ** C5 *)

Lemma count_split {A} (p : A -> bool) (l : list A) :
  count p l + count (fun x => negb (p x)) l = length l.
Proof.
  unfold count; induction l as [|x l IH]; simpl; [reflexivity|].
  destruct (p x); simpl; lia.
Qed.

Lemma nth_error_map_some {A B} (f : A -> B) (l : list A) (i : nat) (x : A) :
  nth_error l i = Some x -> nth_error (map f l) i = Some (f x).
Proof. intros H; rewrite nth_error_map, H; reflexivity. Qed.

(** Claim C5: for any per-device send (whatever it resolves or rejects
    with), [sendToDevices] over N devices resolves (never rejects) with a
    report of exactly N per-device outcomes; the i-th outcome is the
    i-th device's own caught outcome, independent of its siblings, and a
    rejected send becomes [{ success: false, deviceId, error }] for that
    device. *)
Theorem C5_sendToDevices_isolates_failures
    (send : device -> push_payload -> js device_outcome)
    (devs : list device) (payload : push_payload) :
  exists rep,
    sendToDevices send devs payload = Resolved rep
    /\ total rep = length devs
    /\ length (results rep) = length devs
    /\ successful rep + failed rep = length devs
    /\ (forall i d, nth_error devs i = Some d ->
          nth_error (results rep) i = Some (catch_device send payload d)
          /\ (forall e, send d payload = Rejected e ->
                nth_error (results rep) i
                = Some (mkOutcome false (Some (deviceId d)) None
                                  (Some (message e)) None))).
Proof.
  eexists; split; [reflexivity|]; simpl.
  split; [reflexivity|].
  split; [apply length_map|].
  split; [rewrite count_split; apply length_map|].
  intros i d Hi; split.
  - apply nth_error_map_some; exact Hi.
  - intros e He. rewrite (nth_error_map_some _ _ _ _ Hi).
    unfold catch_device, js_catch; rewrite He; reflexivity.
Qed.

(** ** C6 *)

(** Claim C6: the three transport sends ([FCMPushService.sendFCMPush],
    [HybridPushService.sendFCMPush], [HybridPushService.sendWebPush])
    always resolve, for every initialisation state, remote behaviour,
    credential and payload; a failed result carries an error reason; an
    uninitialised transport and a rejected remote call are both reported
    as [success = false] with the error message. *)
Theorem C6_transport_send_never_rejects
    (fbInit wpInit : bool) (msend wsend : option string -> push_payload -> js string)
    (cred : option string) (payload : push_payload) :
  (exists r, FCM.sendFCMPush fbInit msend cred payload = Resolved r
             /\ (sr_success r = false -> exists m, sr_error r = Some m))
  /\ (exists r, Hybrid.sendFCMPush fbInit msend cred payload = Resolved r
             /\ (sr_success r = false -> exists m, sr_error r = Some m))
  /\ (exists r, Hybrid.sendWebPush wpInit wsend cred payload = Resolved r
             /\ (sr_success r = false -> exists m, sr_error r = Some m))
  /\ (fbInit = false ->
        FCM.sendFCMPush fbInit msend cred payload
        = Resolved (mkSendResult false "fcm" (Some "Firebase not initialized"))
        /\ Hybrid.sendFCMPush fbInit msend cred payload
        = Resolved (mkSendResult false "fcm" (Some "Firebase not initialized")))
  /\ (wpInit = false ->
        Hybrid.sendWebPush wpInit wsend cred payload
        = Resolved (mkSendResult false "web-push" (Some "Web Push VAPID not initialized")))
  /\ (forall e, msend cred payload = Rejected e -> fbInit = true ->
        FCM.sendFCMPush fbInit msend cred payload
        = Resolved (mkSendResult false "fcm" (Some (message e)))
        /\ Hybrid.sendFCMPush fbInit msend cred payload
        = Resolved (mkSendResult false "fcm" (Some (message e))))
  /\ (forall e, wsend cred payload = Rejected e -> wpInit = true ->
        Hybrid.sendWebPush wpInit wsend cred payload
        = Resolved (mkSendResult false "web-push" (Some (message e)))).
Proof.
  unfold FCM.sendFCMPush, Hybrid.sendFCMPush, Hybrid.sendWebPush,
         js_try, js_bind, js_throw, js_ret.
  split; [|split; [|split; [|split; [|split; [|split]]]]].
  - destruct fbInit; simpl; [destruct (msend cred payload)|];
      eexists; split; try reflexivity; simpl; intros; try discriminate; eauto.
  - destruct fbInit; simpl; [destruct (msend cred payload)|];
      eexists; split; try reflexivity; simpl; intros; try discriminate; eauto.
  - destruct wpInit; simpl; [destruct (wsend cred payload)|];
      eexists; split; try reflexivity; simpl; intros; try discriminate; eauto.
  - intros ->; split; reflexivity.
  - intros ->; reflexivity.
  - intros e He ->; simpl; rewrite He; split; reflexivity.
  - intros e He ->; simpl; rewrite He; reflexivity.
Qed.

(** ** Registry invariant: every stored device holds a credential *)

(** A transport credential: a Web Push subscription or a non-empty FCM
    token. *)
Definition has_credential (d : device) : bool :=
  is_some (webPushSubscription d) || truthy_str (fcmToken d).

Lemma Forall_set_nth (P : device -> Prop) (l : list device) (i : nat) (x : device) :
  Forall P l -> P x -> Forall P (Registry.set_nth i x l).
Proof.
  revert i; induction l as [|y l IH]; intros i Hl Hx; destruct i; simpl;
    try constructor; inversion Hl; subst; auto.
Qed.

Lemma Forall_nth_error_some {A} (P : A -> Prop) (l : list A) (i : nat) (x : A) :
  Forall P l -> nth_error l i = Some x -> P x.
Proof.
  intros Hl Hi; rewrite Forall_forall in Hl; apply Hl.
  eapply nth_error_In; eauto.
Qed.

Lemma Forall_filter_keep {A} (P : A -> Prop) (f : A -> bool) (l : list A) :
  Forall P l -> Forall P (filter f l).
Proof.
  induction 1 as [|x l Hx _ IH]; simpl; [constructor|].
  destruct (f x); [constructor|]; assumption.
Qed.

Lemma save_preserves (P : device -> Prop) (old new : list device) :
  Forall P old -> Forall P new -> Forall P (snd (Registry.save old new)).
Proof. unfold Registry.save; destruct (forallb _ _); auto. Qed.

Lemma deviceData_credential (r : Registry.subscribe_req) (id : string) (now oid : nat) :
  (is_some (Registry.rq_webPushSubscription r) || truthy_str (Registry.rq_fcmToken r))
    = true ->
  has_credential (Registry.deviceData r id now oid) = true.
Proof.
  unfold Registry.deviceData, has_credential; destruct (Registry.browser_platform r); simpl.
  destruct (is_some _); simpl; [reflexivity|].
  intros H; rewrite H; exact H.
Qed.

Lemma reachable_credentials (devs : list device) :
  Registry.reachable devs -> Forall (fun d => has_credential d = true) devs.
Proof.
  induction 1 as [|devs r now fresh _ IH|devs rid _ IH|devs id r now _ IH].
  - constructor.
  - unfold Registry.subscribe.
    destruct (Registry.rq_deviceId r) as [id|]; simpl; [|exact IH].
    destruct (String.eqb id ""); simpl; [exact IH|].
    destruct (is_some (Registry.rq_webPushSubscription r)) eqn:Ew;
    destruct (truthy_str (Registry.rq_fcmToken r)) eqn:Ef; simpl;
      try exact IH;
      (apply save_preserves; [exact IH|];
       destruct (Registry.findIndex _ _) as [i|];
       [destruct (nth_error devs i);
        [apply Forall_set_nth; [exact IH|apply deviceData_credential; rewrite Ew, Ef; reflexivity]
        |exact IH]
       |apply Forall_app; split; [exact IH|];
        constructor; [apply deviceData_credential; rewrite Ew, Ef; reflexivity|constructor]]).
  - unfold Registry.unsubscribe.
    destruct rid as [id|]; simpl; [|exact IH].
    destruct (String.eqb id ""); simpl; [exact IH|].
    apply save_preserves; [exact IH|]. apply Forall_filter_keep; exact IH.
  - unfold Registry.patch.
    destruct (Registry.findIndex _ _) as [i|]; simpl; [|exact IH].
    destruct (nth_error devs i) as [d|] eqn:Ed; simpl; [|exact IH].
    apply save_preserves; [exact IH|]. apply Forall_set_nth; [exact IH|].
    exact (Forall_nth_error_some _ _ _ _ IH Ed).
Qed.

Lemma filter_ext_Forall {A} (p q : A -> bool) (l : list A) :
  Forall (fun x => p x = q x) l -> filter p l = filter q l.
Proof.
  induction 1 as [|x l Hx _ IH]; simpl; [reflexivity|].
  rewrite Hx, IH; reflexivity.
Qed.

(** ** C7 *)

Lemma sendToUser_with_shape (send : device -> push_payload -> js device_outcome)
    (elig : device -> bool) (reason : string) (u : user) (payload : push_payload) :
  (sendToUser_with send elig reason u payload = Resolved (UFail reason)
   /\ filter elig (devices u) = [])
  \/ (exists rep,
        sendToUser_with send elig reason u payload = Resolved (UReport rep)
        /\ results rep = map (catch_device send payload) (filter elig (devices u))
        /\ total rep = length (filter elig (devices u))).
Proof.
  unfold sendToUser_with.
  destruct (filter elig (devices u)) as [|d sel] eqn:Es; simpl.
  - left; split; reflexivity.
  - right; eexists; split; [reflexivity|]; split; reflexivity.
Qed.

Lemma filter_disabled_out (p : device -> bool) (devs : list device) (d : device) :
  (forall x, p x = true -> enabled x = true) ->
  enabled d = false -> ~ In d (filter p devs).
Proof.
  intros Hp Hd Hin; apply filter_In in Hin as [_ Hin].
  apply Hp in Hin; congruence.
Qed.

(** Registration requests used in the concrete runs. *)
Definition req_fcm (id tok : string) : Registry.subscribe_req :=
  Registry.mkSubscribeReq (Some id) None (Some tok) None
    (Some (Some "chrome", Some "android")) None.

(** A user who registered two devices and then disabled the second one
    through [PATCH /devices/dev-B]. *)
Definition two_devices : list device :=
  snd (Registry.patch
         (snd (Registry.subscribe
                 (snd (Registry.subscribe [] (req_fcm "dev-A" "tok-A") 1 11))
                 (req_fcm "dev-B" "tok-B") 2 12))
         "dev-B" (Registry.mkPatchReq (Some false) None) 3).

Definition two_devices_user : user := mkUser 7 [] [] two_devices.

Example two_devices_shape :
  map (fun d => (deviceId d, enabled d)) two_devices = [("dev-A", true); ("dev-B", false)].
Proof. vm_compute; reflexivity. Qed.

(** A user whose only device was registered through
    [POST /api/notifications/subscribe] (no Web Push subscription, no FCM
    token). *)
Definition notif_only_user : user :=
  mkUser 9 [] []
    (snd (UserModel.notif_subscribe []
            (UserModel.mkNotifSubscribeReq "dev-N" "android" "native-token") 3 33)).

(** Claim C7 fails: [HybridPushService.sendToUser] selects the enabled
    device of [notif_only_user], which holds no credential, and counts it
    in the report (1 device, 1 failed). *)
Lemma C7_credentialless_device_selected :
  map (fun d => (enabled d, has_credential d)) (devices notif_only_user) = [(true, false)]
  /\ exists rep,
       Hybrid.sendToUser true false send_accepts send_accepts notif_only_user sample_payload
       = Resolved (UReport rep)
       /\ total rep = 1 /\ successful rep = 0 /\ failed rep = 1.
Proof.
  split; [vm_compute; reflexivity|].
  eexists; split; [reflexivity|]. vm_compute; repeat split.
Qed.

(** Amended C7: [FCMPushService.sendToUser] sends to exactly the enabled
    devices with a non-empty [fcmToken]; [HybridPushService.sendToUser]
    sends to every enabled device, with or without a credential.  A
    disabled device is never selected by either service, so it gets no
    send and is not counted; the user with one enabled and one disabled
    device gets a report with 1 device, 1 successful, 0 failed. *)
Theorem C7_disabled_never_selected
    (fbInit wpInit : bool) (msend wsend : option string -> push_payload -> js string)
    (u : user) (payload : push_payload) :
  let selF := filter (fun d => enabled d && truthy_str (fcmToken d)) (devices u) in
  let selH := filter enabled (devices u) in
  ((FCM.sendToUser fbInit msend u payload = Resolved (UFail "No enabled FCM devices")
    /\ selF = [])
   \/ (exists rep, FCM.sendToUser fbInit msend u payload = Resolved (UReport rep)
        /\ results rep = map (catch_device (FCM.sendToDevice fbInit msend) payload) selF
        /\ total rep = length selF))
  /\ ((Hybrid.sendToUser fbInit wpInit msend wsend u payload
         = Resolved (UFail "No enabled devices") /\ selH = [])
   \/ (exists rep, Hybrid.sendToUser fbInit wpInit msend wsend u payload
                   = Resolved (UReport rep)
        /\ results rep
           = map (catch_device (Hybrid.sendToDevice fbInit wpInit msend wsend) payload) selH
        /\ total rep = length selH))
  /\ (forall d, In d (devices u) -> enabled d = false -> ~ In d selF /\ ~ In d selH)
  /\ (exists rep, FCM.sendToUser true send_accepts two_devices_user sample_payload
                  = Resolved (UReport rep)
        /\ total rep = 1 /\ successful rep = 1 /\ failed rep = 0)
  /\ (exists rep, Hybrid.sendToUser true false send_accepts send_rejects
                    two_devices_user sample_payload = Resolved (UReport rep)
        /\ total rep = 1 /\ successful rep = 1 /\ failed rep = 0).
Proof.
  intros selF selH.
  split; [apply (sendToUser_with_shape _ FCM.eligible)|].
  split; [apply (sendToUser_with_shape _ Hybrid.eligible)|].
  split.
  - intros d _ Hd; split; apply filter_disabled_out; auto.
    intros x Hx; apply andb_prop in Hx; tauto.
  - split; eexists; split; try reflexivity; vm_compute; repeat split.
Qed.

(** ** Registry lemmas *)

Section RegistryLemmas.
Import Registry.

Lemma findIndex_some (p : device -> bool) (l : list device) (i : nat) :
  findIndex p l = Some i -> exists x, nth_error l i = Some x /\ p x = true.
Proof.
  revert i; induction l as [|y l IH]; intros i H; simpl in H; [discriminate|].
  destruct (p y) eqn:Ey.
  - injection H as <-; exists y; auto.
  - destruct (findIndex p l) as [j|] eqn:Ej; [|discriminate].
    injection H as <-; simpl; apply IH; reflexivity.
Qed.

Lemma findIndex_none (p : device -> bool) (l : list device) :
  findIndex p l = None -> forall x, In x l -> p x = false.
Proof.
  induction l as [|y l IH]; simpl; intros H x Hx; [contradiction|].
  destruct (p y) eqn:Ey; [discriminate|].
  destruct (findIndex p l); [discriminate|].
  destruct Hx as [<-|Hx]; auto.
Qed.

Lemma findIndex_exists (p : device -> bool) (l : list device) (x : device) :
  In x l -> p x = true -> exists i, findIndex p l = Some i.
Proof.
  induction l as [|y l IH]; simpl; intros Hx Hp; [contradiction|].
  destruct (p y) eqn:Ey; [eauto|].
  destruct Hx as [<-|Hx]; [congruence|].
  destruct (IH Hx Hp) as [i Hi]; rewrite Hi; eauto.
Qed.

Lemma length_set_nth (i : nat) (x : device) (l : list device) :
  length (set_nth i x l) = length l.
Proof.
  revert i; induction l; intros [|i]; simpl; auto.
Qed.

Lemma nth_error_set_nth_same (i : nat) (x y : device) (l : list device) :
  nth_error l i = Some y -> nth_error (set_nth i x l) i = Some x.
Proof.
  revert i; induction l; intros [|i] H; simpl in *; try discriminate; auto.
Qed.

Lemma forallb_set_nth (p : device -> bool) (i : nat) (x : device) (l : list device) :
  forallb p l = true -> p x = true -> forallb p (set_nth i x l) = true.
Proof.
  revert i; induction l as [|y l IH]; intros [|i] Hl Hx; simpl in *; auto;
    apply andb_prop in Hl as [Hy Hl]; rewrite ?Hy, ?Hx; simpl; auto.
Qed.

Lemma forallb_filter_keep (p q : device -> bool) (l : list device) :
  forallb p l = true -> forallb p (filter q l) = true.
Proof.
  induction l as [|y l IH]; simpl; intros H; auto.
  apply andb_prop in H as [Hy Hl]. destruct (q y); simpl; rewrite ?Hy; auto.
Qed.

Lemma deviceData_valid_indep (r : subscribe_req) (id : string) (n o n' o' : nat) :
  device_valid (deviceData r id n o) = device_valid (deviceData r id n' o').
Proof. unfold deviceData; destruct (browser_platform r); reflexivity. Qed.

Lemma count_app {A} (p : A -> bool) (l1 l2 : list A) :
  count p (l1 ++ l2) = count p l1 + count p l2.
Proof. unfold count; rewrite filter_app, length_app; reflexivity. Qed.

Lemma count_filter_none (id : string) (l : list device) :
  count (has_id id) (filter (fun d => negb (has_id id d)) l) = 0.
Proof.
  unfold count; induction l as [|y l IH]; simpl; auto.
  destruct (has_id id y) eqn:E; simpl; [exact IH|]. rewrite E; exact IH.
Qed.

Lemma deviceData_has_id (r : subscribe_req) (id : string) (n o : nat) :
  has_id id (deviceData r id n o) = true.
Proof.
  unfold has_id, deviceData; destruct (browser_platform r); simpl.
  apply String.eqb_refl.
Qed.

Lemma subscribe_unfold (devs : list device) (r : subscribe_req) (id : string)
    (now fresh : nat) :
  request_ok r id ->
  subscribe devs r now fresh =
  save devs (match findIndex (has_id id) devs with
             | Some i =>
                 match nth_error devs i with
                 | Some existing => set_nth i (deviceData r id now (dv_oid existing)) devs
                 | None => devs
                 end
             | None => (devs ++ [deviceData r id now fresh])%list
             end).
Proof.
  intros (Hid & Hne & Hcred & _). unfold subscribe; rewrite Hid, Hne; simpl.
  destruct (is_some (rq_webPushSubscription r)), (truthy_str (rq_fcmToken r));
    simpl in *; try discriminate; reflexivity.
Qed.

Lemma subscribe_existing (devs : list device) (r : subscribe_req) (id : string)
    (now fresh i : nat) (old : device) :
  forallb device_valid devs = true -> request_ok r id ->
  findIndex (has_id id) devs = Some i -> nth_error devs i = Some old ->
  subscribe devs r now fresh = (200, set_nth i (deviceData r id now (dv_oid old)) devs).
Proof.
  intros Hdevs Hr Hi Ho. rewrite (subscribe_unfold _ _ _ _ _ Hr), Hi, Ho.
  unfold save. rewrite forallb_set_nth; [reflexivity|exact Hdevs|].
  destruct Hr as (_ & _ & _ & Hv). rewrite (deviceData_valid_indep _ _ _ _ 0 0); exact Hv.
Qed.

Lemma subscribe_new (devs : list device) (r : subscribe_req) (id : string)
    (now fresh : nat) :
  forallb device_valid devs = true -> request_ok r id ->
  findIndex (has_id id) devs = None ->
  subscribe devs r now fresh = (200, (devs ++ [deviceData r id now fresh])%list).
Proof.
  intros Hdevs Hr Hi. rewrite (subscribe_unfold _ _ _ _ _ Hr), Hi.
  unfold save. rewrite forallb_app, Hdevs; simpl.
  destruct Hr as (_ & _ & _ & Hv). rewrite (deviceData_valid_indep _ _ _ _ 0 0), Hv.
  reflexivity.
Qed.

End RegistryLemmas.

Lemma findIndex_none_intro (p : device -> bool) (l : list device) :
  (forall x, In x l -> p x = false) -> Registry.findIndex p l = None.
Proof.
  induction l as [|y l IH]; simpl; intros H; [reflexivity|].
  rewrite (H y (or_introl eq_refl)), IH; auto.
Qed.

Lemma save_valid (old new : list device) :
  forallb Registry.device_valid old = true ->
  forallb Registry.device_valid (snd (Registry.save old new)) = true.
Proof.
  unfold Registry.save; destruct (forallb _ new) eqn:E; simpl; auto.
Qed.

Lemma subscribe_present_length (devs : list device) (r : Registry.subscribe_req)
    (id : string) (now fresh : nat) (x : device) :
  forallb Registry.device_valid devs = true -> Registry.request_ok r id ->
  In x devs -> Registry.has_id id x = true ->
  length (snd (Registry.subscribe devs r now fresh)) = length devs.
Proof.
  intros Hdevs Hr Hx Hid.
  destruct (findIndex_exists _ _ _ Hx Hid) as [i Hi].
  destruct (findIndex_some _ _ _ Hi) as [old [Ho _]].
  rewrite (subscribe_existing _ _ _ _ _ _ _ Hdevs Hr Hi Ho); simpl.
  apply length_set_nth.
Qed.

Lemma subscribe_result_has_id (devs : list device) (r : Registry.subscribe_req)
    (id : string) (now fresh : nat) :
  forallb Registry.device_valid devs = true -> Registry.request_ok r id ->
  exists x, In x (snd (Registry.subscribe devs r now fresh)) /\ Registry.has_id id x = true.
Proof.
  intros Hdevs Hr.
  destruct (Registry.findIndex (Registry.has_id id) devs) as [i|] eqn:Hi.
  - destruct (findIndex_some _ _ _ Hi) as [old [Ho _]].
    rewrite (subscribe_existing _ _ _ _ _ _ _ Hdevs Hr Hi Ho); simpl.
    exists (Registry.deviceData r id now (dv_oid old)); split;
      [|apply deviceData_has_id].
    eapply nth_error_In; eapply nth_error_set_nth_same; exact Ho.
  - rewrite (subscribe_new _ _ _ _ _ Hdevs Hr Hi); simpl.
    exists (Registry.deviceData r id now fresh); split; [|apply deviceData_has_id].
    apply in_or_app; right; left; reflexivity.
Qed.

(** ** C9 *)

(** Claim C9: [POST /subscribe] is an upsert keyed by [deviceId].  On a
    stored device array (all subdocuments pass validation) and a
    well-formed request: re-registering an existing [deviceId] succeeds,
    keeps the number of devices, and the matched record gets the
    request's platform, browser and credentials, [enabled = true] and
    [lastActiveAt = now]; registering the same request twice gives the
    same number of devices as once; and [POST /unsubscribe] followed by
    [POST /subscribe] for the same [deviceId] leaves exactly one record
    with that [deviceId]. *)
Theorem C9_register_is_upsert
    (devs : list device) (r : Registry.subscribe_req) (id : string)
    (now fresh now' fresh' : nat)
    (Hdevs : forallb Registry.device_valid devs = true)
    (Hr : Registry.request_ok r id) :
  (forall i old,
     Registry.findIndex (Registry.has_id id) devs = Some i ->
     nth_error devs i = Some old ->
     exists d',
       fst (Registry.subscribe devs r now fresh) = 200
       /\ length (snd (Registry.subscribe devs r now fresh)) = length devs
       /\ nth_error (snd (Registry.subscribe devs r now fresh)) i = Some d'
       /\ deviceId d' = id /\ enabled d' = true /\ lastActiveAt d' = now
       /\ (browser d', platform d') = Registry.browser_platform r
       /\ webPushSubscription d' = Registry.rq_webPushSubscription r
       /\ fcmToken d' = (if truthy_str (Registry.rq_fcmToken r)
                         then Registry.rq_fcmToken r else None))
  /\ length (snd (Registry.subscribe (snd (Registry.subscribe devs r now fresh)) r now' fresh'))
     = length (snd (Registry.subscribe devs r now fresh))
  /\ count (Registry.has_id id)
       (snd (Registry.subscribe (snd (Registry.unsubscribe devs (Some id))) r now fresh))
     = 1.
Proof.
  split; [|split].
  - intros i old Hi Ho.
    rewrite (subscribe_existing _ _ _ _ _ _ _ Hdevs Hr Hi Ho); simpl.
    exists (Registry.deviceData r id now (dv_oid old)).
    split; [reflexivity|]. split; [apply length_set_nth|].
    split; [eapply nth_error_set_nth_same; exact Ho|].
    unfold Registry.deviceData; destruct (Registry.browser_platform r) as [b p].
    simpl; repeat split.
  - destruct (subscribe_result_has_id _ _ _ now fresh Hdevs Hr) as [x [Hx Hid]].
    eapply subscribe_present_length; [| exact Hr | exact Hx | exact Hid].
    unfold Registry.subscribe.
    destruct Hr as (Hid' & Hne & Hcred & _); rewrite Hid', Hne; simpl.
    match goal with |- context [if ?b then _ else _] => destruct b end;
      simpl; [exact Hdevs|]. apply save_valid; exact Hdevs.
  - pose proof Hr as Hr'; destruct Hr as (Hid & Hne & Hcred & Hv).
    set (kept := filter (fun d => negb (Registry.has_id id d)) devs).
    assert (Hkept : forallb Registry.device_valid kept = true)
      by (apply forallb_filter_keep; exact Hdevs).
    replace (Registry.unsubscribe devs (Some id)) with (200, kept)
      by (unfold Registry.unsubscribe, Registry.save; rewrite Hne;
          fold kept; rewrite Hkept; reflexivity).
    simpl.
    rewrite (subscribe_new _ _ _ _ _ Hkept Hr'); simpl.
    + rewrite count_app; unfold kept; rewrite count_filter_none; unfold count; simpl.
      rewrite deviceData_has_id; reflexivity.
    + apply findIndex_none_intro; intros x Hx.
      unfold kept in Hx; apply filter_In in Hx as [_ Hx].
      destruct (Registry.has_id id x); simpl in *; congruence.
Qed.

(** ** C10 *)

Lemma nth_error_set_nth_other (i j : nat) (x : device) (l : list device) :
  i <> j -> nth_error (Registry.set_nth i x l) j = nth_error l j.
Proof.
  revert i j; induction l as [|y l IH]; intros [|i] [|j] H; simpl; auto;
    try congruence; destruct j; reflexivity.
Qed.

Lemma save_cases (old new : list device) :
  snd (Registry.save old new) = new \/ snd (Registry.save old new) = old.
Proof. unfold Registry.save; destruct (forallb _ _); auto. Qed.

(** The records whose [deviceId] differs from [id], in order. *)
Definition others (id : string) (l : list device) : list device :=
  filter (fun d => negb (Registry.has_id id d)) l.

Lemma others_filter (id : string) (l : list device) :
  others id (filter (fun d => negb (Registry.has_id id d)) l) = others id l.
Proof.
  unfold others; induction l as [|y l IH]; simpl; auto.
  destruct (Registry.has_id id y) eqn:E; simpl; rewrite ?E; simpl; rewrite ?IH; reflexivity.
Qed.

(** Claim C10: each write route of the registry touches at most the
    record of the requested [deviceId].  [POST /subscribe] leaves every
    other index of the array as it was (a new device is appended after
    them) and keeps the subdocument [_id] of the record it rewrites (the
    one field of the record its [deviceData] does not name);
    [POST /unsubscribe] keeps every record with another [deviceId], in
    order; [PATCH /devices/:deviceId] leaves every other index as it was,
    and in the matched record changes only [lastActiveAt], [enabled] (only
    when a boolean is sent) and [pushMethod] (only to a sent, allowed
    value). *)
Theorem C10_registry_writes_frame
    (devs : list device) (r : Registry.subscribe_req) (now fresh : nat)
    (rid : option string) (id : string) (pr : Registry.patch_req) :
  (forall sid j,
     Registry.rq_deviceId r = Some sid ->
     Registry.findIndex (Registry.has_id sid) devs <> Some j -> j < length devs ->
     nth_error (snd (Registry.subscribe devs r now fresh)) j = nth_error devs j)
  /\ (forall sid i old d',
     Registry.rq_deviceId r = Some sid ->
     Registry.findIndex (Registry.has_id sid) devs = Some i ->
     nth_error devs i = Some old ->
     nth_error (snd (Registry.subscribe devs r now fresh)) i = Some d' ->
     dv_oid d' = dv_oid old)
  /\ (match rid with
      | Some x => others x (snd (Registry.unsubscribe devs rid)) = others x devs
      | None => snd (Registry.unsubscribe devs rid) = devs
      end)
  /\ (forall j,
     Registry.findIndex (Registry.has_id id) devs <> Some j ->
     nth_error (snd (Registry.patch devs id pr now)) j = nth_error devs j)
  /\ (forall i old d',
     Registry.findIndex (Registry.has_id id) devs = Some i ->
     nth_error devs i = Some old ->
     nth_error (snd (Registry.patch devs id pr now)) i = Some d' ->
     dv_oid d' = dv_oid old /\ deviceId d' = deviceId old
     /\ platform d' = platform old /\ browser d' = browser old
     /\ webPushSubscription d' = webPushSubscription old
     /\ fcmToken d' = fcmToken old
     /\ (Registry.pm_enabled pr = None -> enabled d' = enabled old)
     /\ (pushMethod d' = pushMethod old
         \/ (Registry.pm_pushMethod pr = Some (pushMethod d')
             /\ Registry.mem_str (pushMethod d') ["web-push"; "fcm"; "auto"] = true))).
Proof.
  split; [|split; [|split; [|split]]].
  - intros sid j Hsid Hj Hlen. unfold Registry.subscribe; rewrite Hsid.
    destruct (String.eqb sid ""); [reflexivity|].
    match goal with |- context [if ?b then _ else _] => destruct b end;
      [reflexivity|].
    destruct (Registry.findIndex (Registry.has_id sid) devs) as [i|] eqn:Hi.
    + destruct (nth_error devs i);
        (destruct (save_cases devs (Registry.set_nth i (Registry.deviceData r sid now (dv_oid d)) devs)) as [E|E] || idtac).
      * rewrite E; apply nth_error_set_nth_other; congruence.
      * rewrite E; reflexivity.
      * destruct (save_cases devs devs) as [E|E]; rewrite E; reflexivity.
    + destruct (save_cases devs (devs ++ [Registry.deviceData r sid now fresh])%list) as [E|E];
        rewrite E; [apply nth_error_app1; exact Hlen|reflexivity].
  - intros sid i old d' Hsid Hi Ho Hd. revert Hd.
    unfold Registry.subscribe; rewrite Hsid.
    destruct (String.eqb sid ""); [simpl; congruence|].
    match goal with |- context [if ?b then _ else _] => destruct b end;
      [simpl; congruence|].
    rewrite Hi, Ho.
    destruct (save_cases devs (Registry.set_nth i (Registry.deviceData r sid now (dv_oid old)) devs)) as [E|E];
      rewrite E; [|congruence].
    rewrite (nth_error_set_nth_same _ _ _ _ Ho). intros Hd; injection Hd as <-.
    unfold Registry.deviceData; destruct (Registry.browser_platform r); reflexivity.
  - destruct rid as [x|]; unfold Registry.unsubscribe; [|reflexivity].
    destruct (String.eqb x ""); [reflexivity|].
    destruct (save_cases devs (filter (fun d => negb (Registry.has_id x d)) devs)) as [E|E];
      rewrite E; [apply others_filter|reflexivity].
  - intros j Hj. unfold Registry.patch.
    destruct (Registry.findIndex (Registry.has_id id) devs) as [i|] eqn:Hi; [|reflexivity].
    destruct (nth_error devs i) as [d|]; [|reflexivity].
    destruct (save_cases devs (Registry.set_nth i (Registry.patch_device pr now d) devs)) as [E|E];
      rewrite E; [apply nth_error_set_nth_other; congruence|reflexivity].
  - intros i old d' Hi Ho. unfold Registry.patch; rewrite Hi, Ho.
    destruct (save_cases devs (Registry.set_nth i (Registry.patch_device pr now old) devs)) as [E|E];
      rewrite E.
    + rewrite (nth_error_set_nth_same _ _ _ _ Ho). intros Hd; injection Hd as <-.
      unfold Registry.patch_device; simpl.
      repeat split; [destruct (Registry.pm_enabled pr); congruence|].
      destruct (Registry.pm_pushMethod pr) as [m|]; simpl; [|left; reflexivity].
      match goal with |- context [if ?b then _ else _] => destruct b eqn:Em end;
        [|left; reflexivity].
      right; apply andb_prop in Em as [_ Em]; split; [reflexivity|exact Em].
    + rewrite Ho; intros Hd; injection Hd as <-.
      repeat split; auto.
Qed.

(** ** Notification routes *)

Section NotifyLemmas.
Import Notify.

(** A notification type outside the Notification schema's enum makes the
    block fail before anything is stored or pushed. *)
Lemma notify_with_push_rejected (db : list user) (r a : nat) (type cat : string) :
  Nat.eqb r a = false ->
  existsb (String.eqb type) ["follow"; "new_post"] = false ->
  exists e, notify_with_push db r a type cat = ([], Rejected e).
Proof.
  intros Hra Ht. unfold notify_with_push, createNotification.
  rewrite Hra, Ht. eexists; reflexivity.
Qed.

Lemma comment_notifications_nil (db : list user) (actor postAuthor : nat)
    (parent : option nat) :
  comment_notifications db actor postAuthor parent = [].
Proof.
  unfold comment_notifications, b_catch_log.
  destruct (Nat.eqb postAuthor actor) eqn:E; cbn [negb].
  - destruct parent as [pa|]; [|reflexivity].
    destruct (Nat.eqb pa actor) eqn:E2; cbn [negb]; [reflexivity|].
    destruct (notify_with_push_rejected db pa actor "reply" "repliesToMyComments" E2
                eq_refl) as [e He].
    rewrite He; reflexivity.
  - destruct (notify_with_push_rejected db postAuthor actor "comment" "commentsOnMyPosts" E
                eq_refl) as [e He].
    rewrite He; reflexivity.
Qed.

Lemma like_comment_result (db : list user) (likes : list nat) (liker commentAuthor : nat) :
  like_comment db likes liker commentAuthor = (toggleLike likes liker, []).
Proof.
  unfold like_comment, toggleLike.
  destruct (existsb (Nat.eqb liker) likes); cbn [negb andb]; [reflexivity|].
  destruct (Nat.eqb commentAuthor liker) eqn:E; cbn [negb]; [reflexivity|].
  destruct (notify_with_push_rejected db commentAuthor liker "like" "likesOnMyPosts" E
              eq_refl) as [e He].
  unfold b_catch_log; rewrite He; reflexivity.
Qed.

End NotifyLemmas.

(** ** C8 *)

(** Claim C8: the comment, reply and comment-like blocks never notify the
    actor (in-app or push), and when the actor is the only candidate
    (own post and no parent comment, own post and own parent comment, own
    comment liked) nothing is sent at all. *)
Theorem C8_no_self_notification
    (db : list user) (actor postAuthor : nat) (parent : option nat) (likes : list nat)
    (commentAuthor : nat) :
  (forall n, In n (Notify.comment_notifications db actor postAuthor parent) ->
     Notify.recipient n <> actor)
  /\ (forall n, In n (snd (Notify.like_comment db likes actor commentAuthor)) ->
     Notify.recipient n <> actor)
  /\ Notify.comment_notifications db actor actor None = []
  /\ Notify.comment_notifications db actor actor (Some actor) = []
  /\ snd (Notify.like_comment db likes actor actor) = [].
Proof.
  rewrite !comment_notifications_nil, !like_comment_result; cbn [snd].
  split; [|split; [|split; [|split]]]; try reflexivity; intros n [].
Qed.

(** ** C1 *)

Definition db_unset : list user :=
  [mkUser 2 [] [] []; mkUser 3 [1] [] []].

Definition db_opted_in : list user :=
  [mkUser 2 [] [("commentsOnMyPosts", true); ("repliesToMyComments", true)] []].

(** Claim C1 (code evaluated at failing inputs): a candidate whose
    preference is unset is not treated as opted in.  User 3 follows
    user 1 but has no stored [postsFromFollowed]: the followers query of
    [POST /posts] does not select them, so they get neither the in-app
    notification nor the push.  The comment and reply blocks produce no
    notification at all, for every input: [createNotification(..,
    'comment' | 'reply')] fails the Notification type enum before the push
    code is reached; even user 2, with [commentsOnMyPosts] and
    [repliesToMyComments] stored as [true], gets nothing. *)
Theorem C1_unset_preference_not_pushed :
  ~ In (3, "new_post", Notify.Push) (Notify.new_post_notifications db_unset 1)
  /\ ~ In (3, "new_post", Notify.InApp) (Notify.new_post_notifications db_unset 1)
  /\ Notify.comment_notifications db_unset 1 2 None = []
  /\ Notify.comment_notifications db_opted_in 1 2 (Some 2) = []
  /\ (forall db actor postAuthor parent,
        Notify.comment_notifications db actor postAuthor parent = []).
Proof.
  split; [intros H; vm_compute in H; exact H|].
  split; [intros H; vm_compute in H; exact H|].
  split; [reflexivity|split; [reflexivity|]].
  intros db actor postAuthor parent; apply comment_notifications_nil.
Qed.

(** ** C4 *)




(** ** Witnesses *)

Definition one_device : list device :=
  snd (Registry.subscribe [] (req_fcm "dev-A" "tok-A") 1 11).

(** C9 at a user who registered [dev-A] and re-registers it with a
    rotated token. *)
Lemma C9_witness :
  forallb Registry.device_valid one_device = true
  /\ Registry.request_ok (req_fcm "dev-A" "tok-B") "dev-A"
  /\ ((forall i old,
     Registry.findIndex (Registry.has_id "dev-A") one_device = Some i ->
     nth_error one_device i = Some old ->
     exists d',
       fst (Registry.subscribe one_device (req_fcm "dev-A" "tok-B") 5 21) = 200
       /\ length (snd (Registry.subscribe one_device (req_fcm "dev-A" "tok-B") 5 21))
          = length one_device
       /\ nth_error (snd (Registry.subscribe one_device (req_fcm "dev-A" "tok-B") 5 21)) i
          = Some d'
       /\ deviceId d' = "dev-A" /\ enabled d' = true /\ lastActiveAt d' = 5
       /\ (browser d', platform d') = Registry.browser_platform (req_fcm "dev-A" "tok-B")
       /\ webPushSubscription d'
          = Registry.rq_webPushSubscription (req_fcm "dev-A" "tok-B")
       /\ fcmToken d' = (if truthy_str (Registry.rq_fcmToken (req_fcm "dev-A" "tok-B"))
                         then Registry.rq_fcmToken (req_fcm "dev-A" "tok-B") else None))
  /\ length (snd (Registry.subscribe
                    (snd (Registry.subscribe one_device (req_fcm "dev-A" "tok-B") 5 21))
                    (req_fcm "dev-A" "tok-B") 6 22))
     = length (snd (Registry.subscribe one_device (req_fcm "dev-A" "tok-B") 5 21))
  /\ count (Registry.has_id "dev-A")
       (snd (Registry.subscribe (snd (Registry.unsubscribe one_device (Some "dev-A")))
               (req_fcm "dev-A" "tok-B") 5 21))
     = 1).
Proof.
  assert (Hv : forallb Registry.device_valid one_device = true) by (vm_compute; reflexivity).
  assert (Hr : Registry.request_ok (req_fcm "dev-A" "tok-B") "dev-A")
    by (unfold Registry.request_ok; vm_compute; repeat split).
  split; [exact Hv|]. split; [exact Hr|].
  exact (C9_register_is_upsert one_device (req_fcm "dev-A" "tok-B") "dev-A" 5 21 6 22 Hv Hr).
Defined.

(* ================================================================== *)
(** * Further properties of the code *)

(** ** User-agent detection and the registration fallback *)

Ltac case_ifs :=
  repeat match goal with |- context [if ?b then _ else _] => destruct b end.

Lemma detect_in_enums (ua : option string) :
  Registry.mem_str (Registry.detectPlatform ua) ["web"; "android"; "ios"; "mac"; "windows"] = true
  /\ Registry.mem_str (Registry.detectBrowser ua) ["chrome"; "firefox"; "safari"; "edge"; "other"] = true.
Proof.
  unfold Registry.detectPlatform, Registry.detectBrowser.
  destruct ua as [ua|]; [split; case_ifs; reflexivity|split; reflexivity].
Qed.

(** [detectPlatform] and [detectBrowser] only return values of the
    [platform] and [browser] enums of [deviceSchema], for every
    user-agent header (absent or present). *)
Theorem detect_user_agent_in_schema_enums (ua : option string) :
  Registry.mem_str (Registry.detectPlatform ua) ["web"; "android"; "ios"; "mac"; "windows"] = true
  /\ Registry.mem_str (Registry.detectBrowser ua) ["chrome"; "firefox"; "safari"; "edge"; "other"] = true.
Proof. exact (detect_in_enums ua). Qed.

Lemma includes_empty (sub : string) : sub <> "" -> includes "" sub = false.
Proof. destruct sub; [congruence|reflexivity]. Qed.

(** [detectPlatform] tests for "Macintosh" / "Mac OS X" before
    "iPhone" / "iPad": any user agent containing one of the Mac markers
    (iPhone and iPad Safari user agents contain "like Mac OS X") is
    classified as [mac], never [ios]. *)
Theorem detectPlatform_mac_before_ios (ua : string)
    (H : includes ua "Macintosh" = true \/ includes ua "Mac OS X" = true) :
  Registry.detectPlatform (Some ua) = "mac".
Proof.
  unfold Registry.detectPlatform.
  destruct (String.eqb ua "") eqn:E.
  - apply String.eqb_eq in E; subst ua.
    rewrite !includes_empty in H by discriminate. destruct H; discriminate.
  - destruct H as [H|H]; rewrite H; [reflexivity|].
    rewrite orb_true_r; reflexivity.
Qed.

Definition iphone_ua : string :=
  "Mozilla/5.0 (iPhone; CPU iPhone OS 17_0 like Mac OS X) AppleWebKit/605.1.15 (KHTML, like Gecko) Version/17.0 Mobile/15E148 Safari/604.1".

Lemma detectPlatform_mac_before_ios_witness :
  (includes iphone_ua "Macintosh" = true \/ includes iphone_ua "Mac OS X" = true)
  /\ Registry.detectPlatform (Some iphone_ua) = "mac".
Proof.
  assert (H : includes iphone_ua "Macintosh" = true \/ includes iphone_ua "Mac OS X" = true)
    by (right; vm_compute; reflexivity).
  split; [exact H|]. exact (detectPlatform_mac_before_ios iphone_ua H).
Defined.

Lemma request_ok_fallback (r : Registry.subscribe_req) (id : string) :
  Registry.rq_deviceId r = Some id -> String.eqb id "" = false ->
  (is_some (Registry.rq_webPushSubscription r) || truthy_str (Registry.rq_fcmToken r)) = true ->
  Registry.rq_deviceInfo r = None ->
  Registry.mem_str (match Registry.rq_pushMethod r with Some m => m | None => "auto" end)
                   ["web-push"; "fcm"; "auto"] = true ->
  Registry.request_ok r id.
Proof.
  intros Hid Hne Hcred Hinfo Hpm. unfold Registry.request_ok.
  split; [exact Hid|]. split; [exact Hne|]. split; [exact Hcred|].
  unfold Registry.deviceData, Registry.browser_platform; rewrite Hinfo.
  destruct (detect_in_enums (Registry.rq_userAgent r)) as [Hp Hb].
  unfold Registry.device_valid;
    cbn -[Registry.mem_str Registry.detectPlatform Registry.detectBrowser String.eqb].
  rewrite Hne, Hp, Hb, Hpm; reflexivity.
Qed.

(** [POST /subscribe] without [deviceInfo] (platform and browser detected
    from the user agent), with a device id, a credential and an allowed
    or absent [pushMethod], always succeeds on a stored device array, and
    the array stays valid. *)
Theorem subscribe_fallback_succeeds
    (devs : list device) (r : Registry.subscribe_req) (id : string) (now fresh : nat)
    (Hdevs : forallb Registry.device_valid devs = true)
    (Hid : Registry.rq_deviceId r = Some id) (Hne : String.eqb id "" = false)
    (Hcred : (is_some (Registry.rq_webPushSubscription r)
              || truthy_str (Registry.rq_fcmToken r)) = true)
    (Hinfo : Registry.rq_deviceInfo r = None)
    (Hpm : Registry.mem_str (match Registry.rq_pushMethod r with Some m => m | None => "auto" end)
                            ["web-push"; "fcm"; "auto"] = true) :
  fst (Registry.subscribe devs r now fresh) = 200
  /\ forallb Registry.device_valid (snd (Registry.subscribe devs r now fresh)) = true.
Proof.
  pose proof (request_ok_fallback r id Hid Hne Hcred Hinfo Hpm) as Hr.
  destruct (Registry.findIndex (Registry.has_id id) devs) as [i|] eqn:Hi.
  - destruct (findIndex_some _ _ _ Hi) as [old [Ho _]].
    rewrite (subscribe_existing _ _ _ _ _ _ _ Hdevs Hr Hi Ho); simpl.
    split; [reflexivity|]. apply forallb_set_nth; [exact Hdevs|].
    destruct Hr as (_ & _ & _ & Hv). rewrite (deviceData_valid_indep _ _ _ _ 0 0); exact Hv.
  - rewrite (subscribe_new _ _ _ _ _ Hdevs Hr Hi); simpl.
    split; [reflexivity|]. rewrite forallb_app, Hdevs; simpl.
    destruct Hr as (_ & _ & _ & Hv). rewrite (deviceData_valid_indep _ _ _ _ 0 0), Hv.
    reflexivity.
Qed.

Definition req_from_ua : Registry.subscribe_req :=
  Registry.mkSubscribeReq (Some "dev-C") None (Some "tok-C") None None (Some iphone_ua).

Lemma subscribe_fallback_succeeds_witness :
  forallb Registry.device_valid two_devices = true
  /\ Registry.rq_deviceId req_from_ua = Some "dev-C" /\ String.eqb "dev-C" "" = false
  /\ (is_some (Registry.rq_webPushSubscription req_from_ua)
      || truthy_str (Registry.rq_fcmToken req_from_ua)) = true
  /\ Registry.rq_deviceInfo req_from_ua = None
  /\ Registry.mem_str (match Registry.rq_pushMethod req_from_ua with Some m => m | None => "auto" end)
                      ["web-push"; "fcm"; "auto"] = true
  /\ fst (Registry.subscribe two_devices req_from_ua 4 14) = 200
  /\ forallb Registry.device_valid (snd (Registry.subscribe two_devices req_from_ua 4 14)) = true.
Proof.
  assert (H1 : forallb Registry.device_valid two_devices = true) by (vm_compute; reflexivity).
  assert (H2 : Registry.rq_deviceId req_from_ua = Some "dev-C") by reflexivity.
  assert (H3 : String.eqb "dev-C" "" = false) by reflexivity.
  assert (H4 : (is_some (Registry.rq_webPushSubscription req_from_ua)
      || truthy_str (Registry.rq_fcmToken req_from_ua)) = true) by reflexivity.
  assert (H5 : Registry.rq_deviceInfo req_from_ua = None) by reflexivity.
  assert (H6 : Registry.mem_str (match Registry.rq_pushMethod req_from_ua with Some m => m | None => "auto" end)
                      ["web-push"; "fcm"; "auto"] = true) by reflexivity.
  do 6 (split; [assumption|]).
  exact (subscribe_fallback_succeeds two_devices req_from_ua "dev-C" 4 14 H1 H2 H3 H4 H5 H6).
Defined.

(** ** Registry: rejected requests and invariants *)

(** Every answer other than 200 of the three registry write routes leaves
    the stored device array as it was; a request without a (non-empty)
    device id or without any credential is answered 400, and a PATCH for
    a device id the user does not have is answered 404. *)
Theorem registry_rejections_leave_store
    (devs : list device) (r : Registry.subscribe_req) (now fresh : nat)
    (rid : option string) (id : string) (pr : Registry.patch_req) :
  (fst (Registry.subscribe devs r now fresh) <> 200 ->
     snd (Registry.subscribe devs r now fresh) = devs)
  /\ (fst (Registry.unsubscribe devs rid) <> 200 -> snd (Registry.unsubscribe devs rid) = devs)
  /\ (fst (Registry.patch devs id pr now) <> 200 -> snd (Registry.patch devs id pr now) = devs)
  /\ ((Registry.rq_deviceId r = None \/ Registry.rq_deviceId r = Some "") ->
        Registry.subscribe devs r now fresh = (400, devs))
  /\ (is_some (Registry.rq_webPushSubscription r) = false ->
      truthy_str (Registry.rq_fcmToken r) = false ->
        Registry.subscribe devs r now fresh = (400, devs))
  /\ ((rid = None \/ rid = Some "") -> Registry.unsubscribe devs rid = (400, devs))
  /\ ((forall d, In d devs -> Registry.has_id id d = false) ->
        Registry.patch devs id pr now = (404, devs)).
Proof.
  split; [|split; [|split; [|split; [|split; [|split]]]]].
  - unfold Registry.subscribe.
    destruct (Registry.rq_deviceId r) as [x|]; [|reflexivity].
    destruct (String.eqb x ""); [reflexivity|].
    case_ifs; try reflexivity.
    unfold Registry.save; destruct (forallb _ _); simpl; congruence.
  - unfold Registry.unsubscribe. destruct rid as [x|]; [|reflexivity].
    destruct (String.eqb x ""); [reflexivity|].
    unfold Registry.save; destruct (forallb _ _); simpl; congruence.
  - unfold Registry.patch.
    destruct (Registry.findIndex _ _) as [i|]; [|reflexivity].
    destruct (nth_error devs i); [|reflexivity].
    unfold Registry.save; destruct (forallb _ _); simpl; congruence.
  - intros [H|H]; unfold Registry.subscribe; rewrite H; reflexivity.
  - intros Hw Hf. unfold Registry.subscribe.
    destruct (Registry.rq_deviceId r) as [x|]; [|reflexivity].
    destruct (String.eqb x ""); [reflexivity|]. rewrite Hw, Hf; reflexivity.
  - intros [H|H]; subst rid; reflexivity.
  - intros H. unfold Registry.patch. rewrite findIndex_none_intro by exact H.
    reflexivity.
Qed.

Lemma has_id_deviceId (id : string) (d : device) :
  Registry.has_id id d = true -> deviceId d = id.
Proof. unfold Registry.has_id; apply String.eqb_eq. Qed.

Lemma deviceId_deviceData (r : Registry.subscribe_req) (id : string) (n o : nat) :
  deviceId (Registry.deviceData r id n o) = id.
Proof. unfold Registry.deviceData; destruct (Registry.browser_platform r); reflexivity. Qed.

Lemma map_deviceId_set_nth (i : nat) (x y : device) (l : list device) :
  nth_error l i = Some y -> deviceId x = deviceId y ->
  map deviceId (Registry.set_nth i x l) = map deviceId l.
Proof.
  revert i; induction l as [|z l IH]; intros [|i] Hy Hx; simpl in *; try discriminate.
  - injection Hy as ->; rewrite Hx; reflexivity.
  - rewrite (IH i Hy Hx); reflexivity.
Qed.

Lemma NoDup_map_filter {B} (f : device -> B) (p : device -> bool) (l : list device) :
  NoDup (map f l) -> NoDup (map f (filter p l)).
Proof.
  induction l as [|x l IH]; simpl; intros H; [constructor|].
  inversion H as [|? ? Hnot Hl]; subst.
  destruct (p x); simpl; [|auto].
  constructor; [|auto].
  intros Hin; apply Hnot. apply in_map_iff in Hin as [y [Hy Hin]].
  apply filter_In in Hin as [Hin _]. rewrite <- Hy; apply in_map; exact Hin.
Qed.

Lemma reachable_nodup (devs : list device) :
  Registry.reachable devs -> NoDup (map deviceId devs).
Proof.
  induction 1 as [|devs r now fresh _ IH|devs rid _ IH|devs id r now _ IH].
  - constructor.
  - unfold Registry.subscribe.
    destruct (Registry.rq_deviceId r) as [id|]; [|exact IH].
    destruct (String.eqb id ""); [exact IH|].
    case_ifs; try exact IH.
    match goal with |- context [Registry.save devs ?n] =>
      destruct (save_cases devs n) as [E|E]; rewrite E; [|exact IH] end.
    destruct (Registry.findIndex (Registry.has_id id) devs) as [i|] eqn:Hi.
    + destruct (nth_error devs i) as [old|] eqn:Ho; [|exact IH].
      rewrite (map_deviceId_set_nth _ _ old _ Ho); [exact IH|].
      rewrite deviceId_deviceData.
      destruct (findIndex_some _ _ _ Hi) as [old' [Ho' Hid]].
      rewrite Ho in Ho'; injection Ho' as <-. symmetry; apply has_id_deviceId; exact Hid.
    + rewrite map_app; simpl. apply NoDup_app; [exact IH|constructor; [auto|constructor]|].
      intros a Ha [Hb|[]]. subst a. rewrite deviceId_deviceData in Ha.
      apply in_map_iff in Ha as [d [Hd Hin]].
      pose proof (findIndex_none _ _ Hi d Hin) as Hn.
      unfold Registry.has_id in Hn; rewrite Hd, String.eqb_refl in Hn; discriminate.
  - unfold Registry.unsubscribe.
    destruct rid as [id|]; [|exact IH].
    destruct (String.eqb id ""); [exact IH|].
    match goal with |- context [Registry.save devs ?n] =>
      destruct (save_cases devs n) as [E|E]; rewrite E; [|exact IH] end.
    apply NoDup_map_filter; exact IH.
  - unfold Registry.patch.
    destruct (Registry.findIndex _ _) as [i|]; [|exact IH].
    destruct (nth_error devs i) as [old|] eqn:Ho; [|exact IH].
    match goal with |- context [Registry.save devs ?n] =>
      destruct (save_cases devs n) as [E|E]; rewrite E; [|exact IH] end.
    rewrite (map_deviceId_set_nth _ _ old _ Ho); [exact IH|reflexivity].
Qed.

(** Every device array produced by the registry routes from an empty one
    holds at most one record per [deviceId]: the subscribe upsert never
    duplicates a device. *)
Theorem registry_deviceIds_unique (devs : list device)
    (H : Registry.reachable devs) :
  NoDup (map deviceId devs).
Proof. exact (reachable_nodup devs H). Qed.

Lemma two_devices_reachable : Registry.reachable two_devices.
Proof.
  unfold two_devices.
  apply Registry.reach_patch, Registry.reach_subscribe, Registry.reach_subscribe,
    Registry.reach_nil.
Qed.

Lemma registry_deviceIds_unique_witness :
  Registry.reachable two_devices /\ NoDup (map deviceId two_devices).
Proof.
  split; [exact two_devices_reachable|].
  exact (registry_deviceIds_unique two_devices two_devices_reachable).
Defined.

Lemma reachable_valid (devs : list device) :
  Registry.reachable devs -> forallb Registry.device_valid devs = true.
Proof.
  induction 1 as [|devs r now fresh _ IH|devs rid _ IH|devs id r now _ IH].
  - reflexivity.
  - unfold Registry.subscribe.
    destruct (Registry.rq_deviceId r) as [id|]; [|exact IH].
    destruct (String.eqb id ""); [exact IH|].
    case_ifs; try exact IH. apply save_valid; exact IH.
  - unfold Registry.unsubscribe.
    destruct rid as [id|]; [|exact IH].
    destruct (String.eqb id ""); [exact IH|]. apply save_valid; exact IH.
  - unfold Registry.patch.
    destruct (Registry.findIndex _ _) as [i|]; [|exact IH].
    destruct (nth_error devs i); [|exact IH]. apply save_valid; exact IH.
Qed.

(** Every device array produced by the registry routes passes the
    schema validators, and each of its devices holds a credential (a Web
    Push subscription or a non-empty FCM token). *)
Theorem registry_store_valid_with_credentials (devs : list device)
    (H : Registry.reachable devs) :
  forallb Registry.device_valid devs = true
  /\ Forall (fun d => has_credential d = true) devs.
Proof. split; [exact (reachable_valid devs H)|exact (reachable_credentials devs H)]. Qed.

Lemma registry_store_valid_with_credentials_witness :
  Registry.reachable two_devices
  /\ forallb Registry.device_valid two_devices = true
  /\ Forall (fun d => has_credential d = true) two_devices.
Proof.
  split; [exact two_devices_reachable|].
  exact (registry_store_valid_with_credentials two_devices two_devices_reachable).
Defined.

Lemma filter_all_true {A} (f : A -> bool) (l : list A) :
  (forall x, In x l -> f x = true) -> filter f l = l.
Proof.
  induction l as [|x l IH]; simpl; intros H; [reflexivity|].
  rewrite (H x (or_introl eq_refl)), IH; [reflexivity|]. intros y Hy; apply H; right; exact Hy.
Qed.

Lemma filter_idem {A} (f : A -> bool) (l : list A) : filter f (filter f l) = filter f l.
Proof.
  induction l as [|x l IH]; simpl; [reflexivity|].
  destruct (f x) eqn:E; simpl; [rewrite E, IH|]; auto.
Qed.

(** [POST /unsubscribe] on a valid device array with a non-empty device
    id always answers 200 and removes every record with that id;
    repeating the request answers the same and changes nothing, and
    unsubscribing an id the user does not have is a 200 no-op. *)
Theorem unsubscribe_idempotent (devs : list device) (id : string)
    (Hv : forallb Registry.device_valid devs = true)
    (Hne : String.eqb id "" = false) :
  fst (Registry.unsubscribe devs (Some id)) = 200
  /\ (forall d, In d (snd (Registry.unsubscribe devs (Some id))) -> deviceId d <> id)
  /\ Registry.unsubscribe (snd (Registry.unsubscribe devs (Some id))) (Some id)
     = Registry.unsubscribe devs (Some id)
  /\ ((forall d, In d devs -> deviceId d <> id) ->
        Registry.unsubscribe devs (Some id) = (200, devs)).
Proof.
  assert (E : Registry.unsubscribe devs (Some id)
              = (200, filter (fun d => negb (Registry.has_id id d)) devs)).
  { unfold Registry.unsubscribe, Registry.save; rewrite Hne.
    rewrite forallb_filter_keep by exact Hv. reflexivity. }
  rewrite E; split; [reflexivity|split; [|split]].
  - intros d Hd Hid. apply filter_In in Hd as [_ Hd].
    unfold Registry.has_id in Hd; rewrite Hid, String.eqb_refl in Hd; discriminate.
  - unfold Registry.unsubscribe, Registry.save; rewrite Hne; cbn [snd].
    rewrite filter_idem, forallb_filter_keep by exact Hv. reflexivity.
  - intros Habs. rewrite filter_all_true; [reflexivity|].
    intros d Hd. unfold Registry.has_id.
    destruct (String.eqb (deviceId d) id) eqn:Ed; [|reflexivity].
    apply String.eqb_eq in Ed; exfalso; exact (Habs d Hd Ed).
Qed.

Lemma unsubscribe_idempotent_witness :
  (forallb Registry.device_valid two_devices = true /\ String.eqb "dev-A" "" = false)
  /\ Registry.unsubscribe (snd (Registry.unsubscribe two_devices (Some "dev-A"))) (Some "dev-A")
     = Registry.unsubscribe two_devices (Some "dev-A").
Proof.
  split; [split; vm_compute; reflexivity|].
  exact (proj1 (proj2 (proj2 (unsubscribe_idempotent two_devices "dev-A"
           (reachable_valid two_devices two_devices_reachable) eq_refl)))).
Defined.

Lemma patch_device_valid (r : Registry.patch_req) (now : nat) (d : device) :
  Registry.device_valid d = true -> Registry.device_valid (Registry.patch_device r now d) = true.
Proof.
  unfold Registry.device_valid, Registry.patch_device.
  cbn [deviceId platform browser pushMethod].
  intros H; apply andb_true_iff in H as [H Hpm]; rewrite H; cbn [andb].
  destruct (Registry.pm_pushMethod r) as [m|]; cbn [truthy_str andb]; [|exact Hpm].
  destruct (negb (String.eqb m "")); cbn [andb]; [|exact Hpm].
  destruct (Registry.mem_str m _) eqn:Em; [exact Em|exact Hpm].
Qed.

Lemma In_set_nth (i : nat) (x d : device) (l : list device) :
  In d (Registry.set_nth i x l) ->
  d = x \/ exists j, j <> i /\ nth_error l j = Some d.
Proof.
  intros Hd. apply In_nth_error in Hd as [j Hj].
  destruct (Nat.eq_dec j i) as [->|Hne].
  - left. destruct (nth_error l i) as [y|] eqn:Ey.
    + rewrite (nth_error_set_nth_same _ x y _ Ey) in Hj; congruence.
    + exfalso. apply nth_error_None in Ey.
      assert (nth_error (Registry.set_nth i x l) i <> None) as Hs by congruence.
      apply nth_error_Some in Hs; rewrite length_set_nth in Hs; lia.
  - right; exists j; split; [exact Hne|].
    rewrite <- (nth_error_set_nth_other i j x l) by congruence; exact Hj.
Qed.

Lemma nodup_same_id (devs : list device) (i j : nat) (a b : device) :
  NoDup (map deviceId devs) -> nth_error devs i = Some a -> nth_error devs j = Some b ->
  deviceId a = deviceId b -> i = j.
Proof.
  intros Hnd Ha Hb Hab.
  apply (proj1 (NoDup_nth_error _) Hnd).
  - rewrite length_map. apply nth_error_Some; congruence.
  - rewrite !nth_error_map, Ha, Hb; simpl; congruence.
Qed.

(** [PATCH /devices/:deviceId] with [enabled: false] for a device the user
    has answers 200, and afterwards the (single) record with that id is
    disabled: neither service's [sendToUser] selects it any more. *)
Theorem patch_disable_excludes_device (devs : list device) (id : string)
    (r : Registry.patch_req) (now : nat)
    (Hr : Registry.reachable devs)
    (Hin : exists d, In d devs /\ deviceId d = id)
    (Hoff : Registry.pm_enabled r = Some false) :
  fst (Registry.patch devs id r now) = 200
  /\ forall d, In d (snd (Registry.patch devs id r now)) -> deviceId d = id ->
       enabled d = false /\ FCM.eligible d = false /\ Hybrid.eligible d = false.
Proof.
  destruct Hin as [d0 [Hd0 Hid0]].
  assert (Hp : Registry.has_id id d0 = true)
    by (unfold Registry.has_id; rewrite Hid0; apply String.eqb_refl).
  destruct (findIndex_exists _ _ _ Hd0 Hp) as [i Hi].
  destruct (findIndex_some _ _ _ Hi) as [old [Hold Hoid]].
  pose proof (reachable_valid devs Hr) as Hv.
  pose proof (reachable_nodup devs Hr) as Hnd.
  assert (Hvn : forallb Registry.device_valid
                  (Registry.set_nth i (Registry.patch_device r now old) devs) = true).
  { apply forallb_set_nth; [exact Hv|]. apply patch_device_valid.
    rewrite forallb_forall in Hv; apply Hv. eapply nth_error_In; exact Hold. }
  unfold Registry.patch; rewrite Hi, Hold; unfold Registry.save; rewrite Hvn; simpl.
  split; [reflexivity|].
  intros d Hd Hid.
  destruct (In_set_nth _ _ _ _ Hd) as [->|[j [Hji Hj]]].
  - unfold FCM.eligible, Hybrid.eligible, Registry.patch_device; simpl.
    rewrite Hoff; auto.
  - exfalso. apply Hji. apply (nodup_same_id devs j i d old Hnd Hj Hold).
    rewrite Hid; symmetry; apply has_id_deviceId; exact Hoid.
Qed.

Definition disable_A : Registry.patch_req := Registry.mkPatchReq (Some false) None.

Lemma patch_disable_excludes_device_witness :
  (Registry.reachable two_devices
   /\ (exists d, In d two_devices /\ deviceId d = "dev-A")
   /\ Registry.pm_enabled disable_A = Some false)
  /\ fst (Registry.patch two_devices "dev-A" disable_A 5) = 200.
Proof.
  assert (Hex : exists d, In d two_devices /\ deviceId d = "dev-A").
  { exists (hd (mkDevice 0 "" "" "" None None "" 0 false) two_devices).
    split; [vm_compute; left; reflexivity|vm_compute; reflexivity]. }
  split; [split; [exact two_devices_reachable|split; [exact Hex|reflexivity]]|].
  exact (proj1 (patch_disable_excludes_device two_devices "dev-A" disable_A 5
                  two_devices_reachable Hex eq_refl)).
Defined.

(** [getBestPushMethod] only ever answers [web-push], [fcm] or [null]:
    [fcm] only for a device with a non-empty token when Firebase is
    initialised, [web-push] only when VAPID is initialised, and [null] when
    neither transport is initialised.  Since [device.webPushSubscription]
    always reads as an object, with VAPID initialised a device whose
    [pushMethod] is [web-push] always gets [web-push] and one whose
    [pushMethod] is [auto] always gets a method, whether or not a
    subscription is stored. *)
Theorem getBestPushMethod_sound (fi wi : bool) (d : device) :
  (Hybrid.getBestPushMethod fi wi d = Some "fcm" ->
     truthy_str (fcmToken d) = true /\ fi = true)
  /\ (Hybrid.getBestPushMethod fi wi d = Some "web-push" -> wi = true)
  /\ (forall m, Hybrid.getBestPushMethod fi wi d = Some m -> m = "web-push" \/ m = "fcm")
  /\ (fi = false -> wi = false -> Hybrid.getBestPushMethod fi wi d = None)
  /\ (wi = true -> pushMethod d = "web-push" -> Hybrid.getBestPushMethod fi wi d = Some "web-push")
  /\ (wi = true -> pushMethod d = "auto" -> Hybrid.getBestPushMethod fi wi d <> None).
Proof.
  unfold Hybrid.getBestPushMethod, Hybrid.webPushSubscription_read.
  destruct (String.eqb (pushMethod d) "web-push") eqn:E1,
    (String.eqb (pushMethod d) "fcm") eqn:E2, (String.eqb (pushMethod d) "auto") eqn:E3,
    (truthy_str (fcmToken d)), fi, wi,
    (String.eqb (platform d) "web" || String.eqb (platform d) "mac"
     || String.eqb (platform d) "windows");
    cbn [andb]; repeat split; intros;
    repeat match goal with H : Some _ = Some _ |- _ => injection H as H end;
    subst; auto; try discriminate;
    match goal with H : pushMethod d = _ |- _ => rewrite H in *; discriminate end.
Qed.

(** An explicit [pushMethod] never falls back to the other transport:
    [fcm] gets [fcm] when a token is stored and Firebase is initialised,
    and [null] otherwise; [web-push] gets [web-push] when VAPID is
    initialised and [null] otherwise; any method outside the schema's
    three gets [null]. *)
Theorem getBestPushMethod_no_fallback (fi wi : bool) (d : device) :
  (pushMethod d = "web-push" ->
     Hybrid.getBestPushMethod fi wi d = if wi then Some "web-push" else None)
  /\ (pushMethod d = "fcm" ->
     Hybrid.getBestPushMethod fi wi d
     = if truthy_str (fcmToken d) && fi then Some "fcm" else None)
  /\ (Registry.mem_str (pushMethod d) ["web-push"; "fcm"; "auto"] = false ->
     Hybrid.getBestPushMethod fi wi d = None).
Proof.
  unfold Hybrid.getBestPushMethod, Hybrid.webPushSubscription_read; split; [|split].
  - intros ->; simpl. destruct wi; reflexivity.
  - intros ->; simpl. destruct (truthy_str _ && fi); reflexivity.
  - unfold Registry.mem_str; simpl. intros H.
    destruct (String.eqb (pushMethod d) "web-push"), (String.eqb (pushMethod d) "fcm"),
      (String.eqb (pushMethod d) "auto"); simpl in H; try discriminate; reflexivity.
Qed.

(** ** Fan-out summaries *)

Lemma filter_nil_existsb {A} (f : A -> bool) (l : list A) :
  filter f l = [] <-> existsb f l = false.
Proof.
  induction l as [|x l IH]; simpl; [tauto|].
  destruct (f x); simpl; [split; discriminate|exact IH].
Qed.

Lemma sendToDevices_resolves (send : device -> push_payload -> js device_outcome)
    (devs : list device) (payload : push_payload) :
  exists rep, sendToDevices send devs payload = Resolved rep.
Proof. eexists; reflexivity. Qed.

Lemma fcm_entry_success (fi : bool) (msend : option string -> push_payload -> js string)
    (payload : push_payload) (u : user) :
  entry_userId (user_entry_of (FCM.sendToUser fi msend) payload u) = u_id u
  /\ fcm_counts_success (user_entry_of (FCM.sendToUser fi msend) payload u)
     = existsb FCM.eligible (devices u).
Proof.
  unfold user_entry_of, FCM.sendToUser, sendToUser_with.
  destruct (filter FCM.eligible (devices u)) as [|x l] eqn:Ef.
  - apply filter_nil_existsb in Ef; rewrite Ef; split; reflexivity.
  - simpl. split; [reflexivity|].
    symmetry; apply existsb_exists; exists x.
    assert (Hx : In x (filter FCM.eligible (devices u))) by (rewrite Ef; left; reflexivity).
    apply filter_In in Hx; exact Hx.
Qed.

Lemma hybrid_entry_userId (fi wi : bool) (msend wsend : option string -> push_payload -> js string)
    (payload : push_payload) (u : user) :
  entry_userId (user_entry_of (Hybrid.sendToUser fi wi msend wsend) payload u) = u_id u.
Proof.
  unfold user_entry_of, Hybrid.sendToUser, sendToUser_with.
  destruct (Nat.eqb _ 0); reflexivity.
Qed.

Lemma count_map {A B} (f : A -> B) (p : B -> bool) (l : list A) :
  count p (map f l) = count (fun x => p (f x)) l.
Proof.
  unfold count; induction l as [|x l IH]; simpl; [reflexivity|].
  destruct (p (f x)); simpl; rewrite ?IH; reflexivity.
Qed.

(** [sendToUsers] of both services always resolves, whatever the remote
    transports do: it reports one entry per user, in the order of the
    input and carrying that user's id, and its two summary counters add up
    to the number of users. *)
Theorem sendToUsers_report_shape
    (fi wi : bool) (msend wsend : option string -> push_payload -> js string)
    (users : list user) (payload : push_payload) :
  (exists rep, FCM.sendToUsers fi msend users payload = Resolved rep
     /\ totalUsers rep = length users
     /\ map entry_userId (user_results rep) = map u_id users
     /\ summary_successful rep + summary_failed rep = length users)
  /\ (exists rep, Hybrid.sendToUsers fi wi msend wsend users payload = Resolved rep
     /\ totalUsers rep = length users
     /\ map entry_userId (user_results rep) = map u_id users
     /\ summary_successful rep + summary_failed rep = length users).
Proof.
  split; eexists; split; try reflexivity; cbn [totalUsers user_results summary_successful
    summary_failed]; (split; [reflexivity|split]).
  - rewrite map_map; apply map_ext; intros u; apply fcm_entry_success.
  - rewrite count_split, length_map; reflexivity.
  - rewrite map_map; apply map_ext; intros u; apply hybrid_entry_userId.
  - rewrite count_split, length_map; reflexivity.
Qed.

(** In the summary of [FCMPushService.sendToUsers] a user counts as
    successful exactly when they own an enabled device with a non-empty
    FCM token, whatever the outcome of the sends; the users without such a
    device are the failed ones. *)
Theorem fcm_summary_counts_eligible_users
    (fi : bool) (msend : option string -> push_payload -> js string)
    (users : list user) (payload : push_payload) :
  exists rep, FCM.sendToUsers fi msend users payload = Resolved rep
  /\ summary_successful rep = count (fun u => existsb FCM.eligible (devices u)) users
  /\ summary_failed rep = count (fun u => negb (existsb FCM.eligible (devices u))) users.
Proof.
  eexists; split; [reflexivity|]. cbn [summary_successful summary_failed].
  rewrite !count_map. split; unfold count; f_equal; apply filter_ext; intros u;
    rewrite (proj2 (fcm_entry_success fi msend payload u)); reflexivity.
Qed.

(** ** Likes *)

Lemma existsb_filter_neq (l : list nat) (u v : nat) :
  existsb (Nat.eqb v) (filter (fun id => negb (Nat.eqb id u)) l)
  = if Nat.eqb v u then false else existsb (Nat.eqb v) l.
Proof.
  induction l as [|x l IH]; simpl; [destruct (Nat.eqb v u); reflexivity|].
  destruct (Nat.eq_dec x u) as [->|Hxu].
  - rewrite Nat.eqb_refl; simpl; rewrite IH.
    destruct (Nat.eqb v u); reflexivity.
  - apply Nat.eqb_neq in Hxu; rewrite Hxu; simpl; rewrite IH.
    destruct (Nat.eqb v u) eqn:E; [|reflexivity].
    apply Nat.eqb_eq in E; subst v; rewrite Nat.eqb_sym, Hxu; reflexivity.
Qed.

Lemma filter_neq_absent (l : list nat) (u : nat) :
  existsb (Nat.eqb u) l = false -> filter (fun id => negb (Nat.eqb id u)) l = l.
Proof.
  intros H; apply filter_all_true; intros x Hx.
  destruct (Nat.eqb x u) eqn:E; [|reflexivity].
  apply Nat.eqb_eq in E; subst x.
  assert (existsb (Nat.eqb u) l = true) by (apply existsb_exists; exists u; split;
    [exact Hx|apply Nat.eqb_refl]). congruence.
Qed.

(** [post.toggleLike(userId)] flips [isLikedBy(userId)] and leaves every
    other user's like as it was; a like followed by an unlike restores
    the array; the answer of [POST /posts/:id/like] reports the new like
    state and the new length, one more than before for a like. *)
Theorem toggleLike_flips (db : list user) (postAuthor : nat) (likes : list nat) (u v : nat) :
  Likes.isLikedBy (Notify.toggleLike likes u) u = negb (Likes.isLikedBy likes u)
  /\ (v <> u -> Likes.isLikedBy (Notify.toggleLike likes u) v = Likes.isLikedBy likes v)
  /\ (Likes.isLikedBy likes u = false ->
        Notify.toggleLike (Notify.toggleLike likes u) u = likes
        /\ length (Notify.toggleLike likes u) = S (length likes))
  /\ Likes.like_post_response db postAuthor likes u
     = (Likes.isLikedBy (Notify.toggleLike likes u) u, length (Notify.toggleLike likes u)).
Proof.
  unfold Likes.isLikedBy, Notify.toggleLike.
  assert (Happ : forall w, existsb (Nat.eqb w) (likes ++ [u])%list
                           = existsb (Nat.eqb w) likes || Nat.eqb w u).
  { intros w; rewrite existsb_app; simpl; rewrite orb_false_r; reflexivity. }
  split; [|split; [|split]].
  - destruct (existsb (Nat.eqb u) likes) eqn:E.
    + rewrite existsb_filter_neq, Nat.eqb_refl; reflexivity.
    + rewrite Happ, E, Nat.eqb_refl; reflexivity.
  - intros Hvu. apply Nat.eqb_neq in Hvu.
    destruct (existsb (Nat.eqb u) likes).
    + rewrite existsb_filter_neq, Hvu; reflexivity.
    + rewrite Happ, Hvu, orb_false_r; reflexivity.
  - intros E; rewrite E, Happ, E, Nat.eqb_refl; simpl. split.
    + rewrite filter_app; simpl; rewrite Nat.eqb_refl; simpl.
      rewrite app_nil_r; apply filter_neq_absent; exact E.
    + rewrite length_app; simpl; lia.
  - unfold Likes.like_post_response, Notify.like_post, Likes.isLikedBy, Notify.toggleLike; simpl.
    destruct (existsb (Nat.eqb u) likes) eqn:E.
    + rewrite existsb_filter_neq, Nat.eqb_refl; reflexivity.
    + rewrite Happ, E, Nat.eqb_refl; reflexivity.
Qed.

(** ** Payload bodies *)

(** The comment, reply and like push bodies are never longer than 50
    characters and the new-post body never longer than 103; a text within
    the limit is sent unchanged. *)
Theorem payload_body_bounds (text : string) :
  js_length (comment_body text) <= 50
  /\ js_length (new_post_body text) <= 103
  /\ (js_length text <= 50 -> comment_body text = text)
  /\ (js_length text <= 100 -> new_post_body text = text).
Proof.
  split; [|split; [|split]].
  - destruct (Nat.ltb 50 (js_length text)) eqn:E.
    + apply Nat.ltb_lt in E; rewrite comment_body_length by exact E; lia.
    + apply Nat.ltb_ge in E; unfold comment_body; rewrite (proj2 (Nat.ltb_ge _ _) E); exact E.
  - destruct (Nat.ltb 100 (js_length text)) eqn:E.
    + apply Nat.ltb_lt in E; rewrite new_post_body_length by exact E; lia.
    + apply Nat.ltb_ge in E; unfold new_post_body; rewrite (proj2 (Nat.ltb_ge _ _) E); lia.
  - intros H; unfold comment_body; rewrite (proj2 (Nat.ltb_ge _ _) H); reflexivity.
  - intros H; unfold new_post_body; rewrite (proj2 (Nat.ltb_ge _ _) H); reflexivity.
Qed.

(** ** Device methods of the user model *)

Lemma filter_has_id_app (devs : list device) (data : device) :
  filter (Registry.has_id (deviceId data))
    (filter (fun d => negb (Registry.has_id (deviceId data) d)) devs ++ [data])%list
  = [data].
Proof.
  rewrite filter_app; cbn [filter].
  replace (Registry.has_id (deviceId data) data) with true
    by (symmetry; apply String.eqb_refl).
  replace (filter _ (filter _ devs)) with (@nil device); [reflexivity|].
  induction devs as [|x l IH]; simpl; [reflexivity|].
  destruct (Registry.has_id (deviceId data) x) eqn:E; simpl; [exact IH|].
  rewrite E; exact IH.
Qed.

Lemma addDevice_ok (devs : list device) (data : device)
    (Hv : forallb Registry.device_valid devs = true)
    (Hd : Registry.device_valid data = true) :
  UserModel.addDevice devs data
  = (200, (filter (fun d => negb (Registry.has_id (deviceId data) d)) devs ++ [data])%list).
Proof.
  unfold UserModel.addDevice, Registry.save.
  rewrite forallb_app, forallb_filter_keep by exact Hv; simpl; rewrite Hd; reflexivity.
Qed.

Lemma addDevice_props (devs : list device) (data : device)
    (Hv : forallb Registry.device_valid devs = true)
    (Hd : Registry.device_valid data = true) :
  fst (UserModel.addDevice devs data) = 200
  /\ filter (Registry.has_id (deviceId data)) (snd (UserModel.addDevice devs data)) = [data]
  /\ (forall d, deviceId d <> deviceId data ->
        In d (snd (UserModel.addDevice devs data)) <-> In d devs)
  /\ (NoDup (map deviceId devs) -> NoDup (map deviceId (snd (UserModel.addDevice devs data)))).
Proof.
  rewrite (addDevice_ok devs data Hv Hd); cbn [fst snd].
  split; [reflexivity|split; [apply filter_has_id_app|split]].
  - intros d Hne. rewrite in_app_iff, filter_In; simpl.
    assert (Hh : Registry.has_id (deviceId data) d = false).
    { unfold Registry.has_id; apply String.eqb_neq; exact Hne. }
    rewrite Hh; simpl. split; [intros [[H _]|[H|[]]]; [exact H|subst d; congruence]|].
    intros H; left; split; [exact H|reflexivity].
  - intros Hnd. rewrite map_app; simpl. apply NoDup_app;
      [apply NoDup_map_filter; exact Hnd|constructor; [auto|constructor]|].
    intros a Ha [Hb|[]]; subst a.
    apply in_map_iff in Ha as [d [Hd' Hin]]. apply filter_In in Hin as [_ Hin].
    unfold Registry.has_id in Hin; rewrite Hd', String.eqb_refl in Hin; discriminate.
Qed.

(** [user.addDevice(data)] on a valid device array with valid data
    answers 200; afterwards [data] is the only record with its
    [deviceId], the records of other devices are kept, and no device id
    is duplicated. *)
Theorem addDevice_replaces (devs : list device) (data : device)
    (Hv : forallb Registry.device_valid devs = true)
    (Hd : Registry.device_valid data = true) :
  fst (UserModel.addDevice devs data) = 200
  /\ filter (Registry.has_id (deviceId data)) (snd (UserModel.addDevice devs data)) = [data]
  /\ (forall d, deviceId d <> deviceId data ->
        In d (snd (UserModel.addDevice devs data)) <-> In d devs)
  /\ (NoDup (map deviceId devs) -> NoDup (map deviceId (snd (UserModel.addDevice devs data)))).
Proof. exact (addDevice_props devs data Hv Hd). Qed.

Definition new_dev_B : device := Registry.deviceData (req_fcm "dev-B" "tok-C") "dev-B" 9 99.

Lemma addDevice_replaces_witness :
  (forallb Registry.device_valid two_devices = true
   /\ Registry.device_valid new_dev_B = true)
  /\ filter (Registry.has_id "dev-B") (snd (UserModel.addDevice two_devices new_dev_B))
     = [new_dev_B].
Proof.
  assert (Hv : forallb Registry.device_valid two_devices = true) by (vm_compute; reflexivity).
  assert (Hd : Registry.device_valid new_dev_B = true) by (vm_compute; reflexivity).
  split; [split; [exact Hv|exact Hd]|].
  exact (proj1 (proj2 (addDevice_replaces two_devices new_dev_B Hv Hd))).
Defined.

Lemma mem_str_4_5 (p : string) :
  Registry.mem_str p ["web"; "android"; "ios"; "mac"] = true ->
  Registry.mem_str p ["web"; "android"; "ios"; "mac"; "windows"] = true.
Proof.
  unfold Registry.mem_str; simpl.
  destruct (String.eqb p "web"), (String.eqb p "android"), (String.eqb p "ios"),
    (String.eqb p "mac"); simpl; auto; intros H; discriminate H.
Qed.

(** [POST /api/notifications/subscribe] with a valid body answers 200,
    but the device it stores under the requested id has no credential:
    [pushToken] is not a field of the device schema, so the record it
    writes (and which replaces any record registered under the same id
    through [/api/push/subscribe]) holds neither a Web Push subscription
    nor an FCM token, and [FCMPushService] never selects it. *)
Theorem notif_subscribe_stores_no_credential (devs : list device)
    (r : UserModel.notif_subscribe_req) (now oid : nat)
    (Hv : forallb Registry.device_valid devs = true)
    (Hid : UserModel.ns_deviceId r <> "")
    (Htok : UserModel.ns_pushToken r <> "")
    (Hp : Registry.mem_str (UserModel.ns_platform r) ["web"; "android"; "ios"; "mac"] = true) :
  fst (UserModel.notif_subscribe devs r now oid) = 200
  /\ (exists d, In d (snd (UserModel.notif_subscribe devs r now oid))
                /\ deviceId d = UserModel.ns_deviceId r)
  /\ forall d, In d (snd (UserModel.notif_subscribe devs r now oid)) ->
       deviceId d = UserModel.ns_deviceId r ->
       has_credential d = false /\ FCM.eligible d = false.
Proof.
  set (data := mkDevice oid (UserModel.ns_deviceId r) (UserModel.ns_platform r) "other"
                        None None "auto" now true).
  assert (Hd : Registry.device_valid data = true).
  { unfold Registry.device_valid; cbn [data deviceId platform browser pushMethod].
    apply String.eqb_neq in Hid; rewrite Hid, mem_str_4_5 by exact Hp; reflexivity. }
  assert (E : UserModel.notif_subscribe devs r now oid = UserModel.addDevice devs data).
  { unfold UserModel.notif_subscribe.
    rewrite (proj2 (String.eqb_neq _ _) Hid), (proj2 (String.eqb_neq _ _) Htok), Hp.
    reflexivity. }
  rewrite E.
  destruct (addDevice_props devs data Hv Hd) as [H200 [Hf _]].
  split; [exact H200|split].
  - exists data; split; [|reflexivity].
    assert (In data (filter (Registry.has_id (deviceId data)) (snd (UserModel.addDevice devs data))))
      by (rewrite Hf; left; reflexivity).
    apply filter_In in H; exact (proj1 H).
  - intros d Hin Hdid.
    assert (Hd' : In d (filter (Registry.has_id (deviceId data)) (snd (UserModel.addDevice devs data)))).
    { apply filter_In; split; [exact Hin|]. unfold Registry.has_id; rewrite Hdid.
      apply String.eqb_refl. }
    rewrite Hf in Hd'; destruct Hd' as [<-|[]].
    split; reflexivity.
Qed.

Definition notif_req : UserModel.notif_subscribe_req :=
  UserModel.mkNotifSubscribeReq "dev-A" "android" "fcm-token-A".

Lemma notif_subscribe_stores_no_credential_witness :
  (forallb Registry.device_valid two_devices = true
   /\ UserModel.ns_deviceId notif_req <> ""
   /\ UserModel.ns_pushToken notif_req <> ""
   /\ Registry.mem_str (UserModel.ns_platform notif_req) ["web"; "android"; "ios"; "mac"] = true)
  /\ fst (UserModel.notif_subscribe two_devices notif_req 3 33) = 200.
Proof.
  assert (Hv : forallb Registry.device_valid two_devices = true) by (vm_compute; reflexivity).
  assert (H1 : UserModel.ns_deviceId notif_req <> "") by discriminate.
  assert (H2 : UserModel.ns_pushToken notif_req <> "") by discriminate.
  assert (H3 : Registry.mem_str (UserModel.ns_platform notif_req)
                 ["web"; "android"; "ios"; "mac"] = true) by reflexivity.
  split; [split; [exact Hv|split; [exact H1|split; [exact H2|exact H3]]]|].
  exact (proj1 (notif_subscribe_stores_no_credential two_devices notif_req 3 33 Hv H1 H2 H3)).
Defined.

(** ** Notification settings and their migration *)

Lemma lookup_filter_neq (s : list (string * bool)) (k k' : string) :
  String.eqb k k' = false ->
  setting_lookup (filter (fun p => negb (String.eqb (fst p) k)) s) k' = setting_lookup s k'.
Proof.
  intros E; induction s as [|[a b] s IH]; simpl; [reflexivity|].
  destruct (String.eqb a k) eqn:Eak; simpl.
  - apply String.eqb_eq in Eak; subst a; rewrite E; exact IH.
  - destruct (String.eqb a k'); [reflexivity|exact IH].
Qed.

Lemma lookup_set_setting (s : list (string * bool)) (k k' : string) (v : bool) :
  setting_lookup (Settings.set_setting s k v) k'
  = if String.eqb k k' then Some v else setting_lookup s k'.
Proof.
  unfold Settings.set_setting; simpl.
  destruct (String.eqb k k') eqn:E; [reflexivity|]. apply lookup_filter_neq; exact E.
Qed.

Lemma patch_settings_lookups (u : user) (f p : option bool) (k : string) :
  setting (Settings.patch_settings u f p) "follows"
    = match f with Some v => Some v | None => setting u "follows" end
  /\ setting (Settings.patch_settings u f p) "postsFromFollowed"
    = match p with Some v => Some v | None => setting u "postsFromFollowed" end
  /\ (k <> "follows" -> k <> "postsFromFollowed" ->
        setting (Settings.patch_settings u f p) k = setting u k)
  /\ u_id (Settings.patch_settings u f p) = u_id u
  /\ following (Settings.patch_settings u f p) = following u
  /\ devices (Settings.patch_settings u f p) = devices u.
Proof.
  unfold Settings.patch_settings, Settings.with_settings, setting; cbn [notificationSettings
    u_id following devices].
  split; [|split; [|split; [|split; [|split]]]]; try reflexivity.
  - destruct p as [w|]; [rewrite lookup_set_setting; simpl|];
      (destruct f as [v|]; [rewrite lookup_set_setting; reflexivity|reflexivity]).
  - destruct p as [w|]; [rewrite lookup_set_setting, String.eqb_refl; reflexivity|].
    destruct f as [v|]; [rewrite lookup_set_setting; reflexivity|reflexivity].
  - intros H1 H2.
    assert (E1 : String.eqb "follows" k = false) by (apply String.eqb_neq; congruence).
    assert (E2 : String.eqb "postsFromFollowed" k = false) by (apply String.eqb_neq; congruence).
    destruct p as [w|]; [rewrite lookup_set_setting, E2|];
      (destruct f as [v|]; [rewrite lookup_set_setting, E1|]); reflexivity.
Qed.

(** [PATCH /api/notifications/settings] writes exactly the fields present
    in the body: each of [follows] and [postsFromFollowed] reads back as
    the value sent, or as before when it was absent; every other
    category, the user's id, follow list and devices are untouched. *)
Theorem patch_settings_effect (u : user) (f p : option bool) (k : string) :
  setting (Settings.patch_settings u f p) "follows"
    = match f with Some v => Some v | None => setting u "follows" end
  /\ setting (Settings.patch_settings u f p) "postsFromFollowed"
    = match p with Some v => Some v | None => setting u "postsFromFollowed" end
  /\ (k <> "follows" -> k <> "postsFromFollowed" ->
        setting (Settings.patch_settings u f p) k = setting u k)
  /\ u_id (Settings.patch_settings u f p) = u_id u
  /\ following (Settings.patch_settings u f p) = following u
  /\ devices (Settings.patch_settings u f p) = devices u.
Proof. exact (patch_settings_lookups u f p k). Qed.

(** After [PATCH /api/notifications/settings] with
    [postsFromFollowed: false] the user is no longer found by the
    followers query of [POST /posts]; with [postsFromFollowed: true] a user
    who follows the author is found again. *)
Theorem patch_settings_followers_query (u : user) (f : option bool) (author : nat) :
  Notify.followers_query [Settings.patch_settings u f (Some false)] author = []
  /\ (In author (following u) ->
        Notify.followers_query [Settings.patch_settings u f (Some true)] author
        = [Settings.patch_settings u f (Some true)]).
Proof.
  unfold Notify.followers_query; cbn [filter].
  rewrite !(proj1 (proj2 (patch_settings_lookups u f _ ""))),
          !(proj1 (proj2 (proj2 (proj2 (proj2 (patch_settings_lookups u f _ "")))))). 
  rewrite andb_false_r; split; [reflexivity|].
  intros Hin.
  rewrite (proj1 (proj2 (proj2 (proj2 (proj2 (patch_settings_lookups u f (Some true) "")))))).
  replace (existsb (Nat.eqb author) (following u)) with true; [reflexivity|].
  symmetry; apply existsb_exists; exists author; split; [exact Hin|apply Nat.eqb_refl].
Qed.

Lemma patch_settings_followers_query_witness :
  In 3 (following (mkUser 8 [3] [] [])) /\
  Notify.followers_query [Settings.patch_settings (mkUser 8 [3] [] []) None (Some true)] 3
  = [Settings.patch_settings (mkUser 8 [3] [] []) None (Some true)].
Proof.
  assert (H : In 3 (following (mkUser 8 [3] [] []))) by (left; reflexivity).
  split; [exact H|].
  exact (proj2 (patch_settings_followers_query (mkUser 8 [3] [] []) None 3) H).
Defined.









(** ** Per-device sends *)

Lemma transports_resolve (fi wi : bool) (msend wsend : option string -> push_payload -> js string)
    (cred : option string) (payload : push_payload) :
  (exists r, Hybrid.sendFCMPush fi msend cred payload = Resolved r)
  /\ (exists r, Hybrid.sendWebPush wi wsend cred payload = Resolved r).
Proof.
  unfold Hybrid.sendFCMPush, Hybrid.sendWebPush, js_try; split.
  - destruct fi; simpl; [destruct (msend cred payload)|]; eexists; reflexivity.
  - destruct wi; simpl; [destruct (wsend cred payload)|]; eexists; reflexivity.
Qed.

Lemma fcm_transport_resolves (fi : bool) (msend : option string -> push_payload -> js string)
    (cred : option string) (payload : push_payload) :
  exists r, FCM.sendFCMPush fi msend cred payload = Resolved r.
Proof.
  unfold FCM.sendFCMPush, js_try.
  destruct fi; simpl; [destruct (msend cred payload)|]; eexists; reflexivity.
Qed.

(** The per-device send of both services always resolves.  A disabled
    device is short-circuited with ["Device disabled"] before any
    transport is called; [FCMPushService] short-circuits a device without
    a token, and [HybridPushService] one for which [getBestPushMethod]
    finds nothing.  Otherwise the outcome carries the device's id and the
    method used, which for the hybrid service is the one
    [getBestPushMethod] chose. *)
Theorem sendToDevice_outcome
    (fi wi : bool) (msend wsend : option string -> push_payload -> js string)
    (d : device) (payload : push_payload) :
  (exists o, FCM.sendToDevice fi msend d payload = Resolved o
     /\ (enabled d = false -> o = short_circuit "Device disabled")
     /\ (enabled d = true -> truthy_str (fcmToken d) = false ->
           o = short_circuit "No FCM token available")
     /\ (FCM.eligible d = true ->
           o_deviceId o = Some (deviceId d) /\ o_method o = Some "fcm"))
  /\ (exists o, Hybrid.sendToDevice fi wi msend wsend d payload = Resolved o
     /\ (enabled d = false -> o = short_circuit "Device disabled")
     /\ (enabled d = true -> Hybrid.getBestPushMethod fi wi d = None ->
           o = short_circuit "No available push method")
     /\ (forall m, enabled d = true -> Hybrid.getBestPushMethod fi wi d = Some m ->
           o_deviceId o = Some (deviceId d) /\ o_method o = Some m)).
Proof.
  split.
  - unfold FCM.sendToDevice, FCM.eligible.
    destruct (enabled d) eqn:Een; cbn [negb].
    + destruct (truthy_str (fcmToken d)) eqn:Et; cbn [negb].
      * destruct (fcm_transport_resolves fi msend (fcmToken d) payload) as [r Hr].
        rewrite Hr; simpl. eexists; split; [reflexivity|].
        split; [discriminate|split; [discriminate|auto]].
      * eexists; split; [reflexivity|].
        split; [discriminate|split; [auto|discriminate]].
    + eexists; split; [reflexivity|]. split; [auto|split; discriminate].
  - unfold Hybrid.sendToDevice.
    destruct (enabled d) eqn:Een; cbn [negb].
    + destruct (Hybrid.getBestPushMethod fi wi d) as [m|] eqn:Em.
      * destruct (String.eqb m "web-push") eqn:Ew.
        -- destruct (transports_resolve fi wi msend wsend
                       (webPushSubscription d) payload) as [_ [r Hr]].
           rewrite Hr; simpl. eexists; split; [reflexivity|].
           split; [discriminate|split; [discriminate|]].
           intros m' _ Hm; injection Hm as <-; auto.
        -- destruct (String.eqb m "fcm") eqn:Ef.
           ++ destruct (transports_resolve fi wi msend wsend
                          (fcmToken d) payload) as [[r Hr] _].
              rewrite Hr; simpl. eexists; split; [reflexivity|].
              split; [discriminate|split; [discriminate|]].
              intros m' _ Hm; injection Hm as <-; auto.
           ++ eexists; split; [reflexivity|].
              split; [discriminate|split; [discriminate|]].
              intros m' _ Hm; injection Hm as <-; auto.
      * eexists; split; [reflexivity|].
        split; [discriminate|split; [auto|discriminate]].
    + eexists; split; [reflexivity|]. split; [auto|split; discriminate].
Qed.

(** The two unsubscribe routes agree: [POST /api/notifications/unsubscribe]
    ([user.removeDevice]) with a non-empty device id stores and answers
    the same as [POST /api/push/unsubscribe]. *)
Theorem unsubscribe_routes_agree (devs : list device) (id : string) :
  id <> "" -> UserModel.removeDevice devs id = Registry.unsubscribe devs (Some id).
Proof.
  intros H. unfold Registry.unsubscribe. rewrite (proj2 (String.eqb_neq _ _) H).
  reflexivity.
Qed.

Lemma unsubscribe_routes_agree_witness :
  ("dev-A" <> "")
  /\ UserModel.removeDevice two_devices "dev-A" = Registry.unsubscribe two_devices (Some "dev-A").
Proof.
  assert (H : "dev-A" <> "") by discriminate.
  split; [exact H|exact (unsubscribe_routes_agree two_devices "dev-A" H)].
Defined.
